(** * servo-tester: a hobby RC servo tester for the ATtiny84

    Shallow embedding of [servo-tester.c] and the properties of its
    control loop.

    The program drives one servo channel from Timer1 (compare register
    [OCR1A]), samples a potentiometer with the free-running ADC (interrupt
    handler [ADC_vect]) and polls a Center/Manual switch on [PA1].

    Layout of this file:
    - [Float32]: the binary floating-point arithmetic the Manual-mode
      scaling is carried out in (IEEE 754, round to nearest even), on top
      of the Standard Library's [SpecFloat];
    - [ATtiny84]: the I/O registers the program touches, the machine state
      and the primitive statements (register store, [sei], [cli], ...);
    - [ServoTester]: the program itself, function by function;
    - the theorems. *)

From Stdlib Require Import ZArith List Bool Lia QArith Qround.
From Stdlib Require Import Floats.SpecFloat.
Import ListNotations.
Local Open Scope Z_scope.

(* ================================================================== *)
(** ** Floating-point arithmetic *)

Module Float32.

(** avr-gcc implements [float] as IEEE 754 binary32.  Its [double] is
    binary32 as well by default ([-mdouble=32]) and binary64 with
    [-mdouble=64]; the constant [PWM_RANGE / 255.0] and the product at
    line 198 have type [double], so the development is carried out for
    both settings. *)
Inductive double_abi := Double32 | Double64.

Definition prec : Z := 24.
Definition emax : Z := 128.

Definition dprec (abi : double_abi) : Z :=
  match abi with Double32 => 24 | Double64 => 53 end.
Definition demax (abi : double_abi) : Z :=
  match abi with Double32 => 128 | Double64 => 1024 end.

(** Integer to [float] / [double] conversion (round to nearest even). *)
Definition float_of_Z (z : Z) : spec_float :=
  binary_normalize prec emax z 0 false.
Definition double_of_Z (abi : double_abi) (z : Z) : spec_float :=
  binary_normalize (dprec abi) (demax abi) z 0 false.

(** Conversions between the two floating types. *)
Definition double_of_float (abi : double_abi) (f : spec_float) : spec_float :=
  match f with
  | S754_finite s m e => binary_round (dprec abi) (demax abi) s m e
  | _ => f
  end.
Definition float_of_double (d : spec_float) : spec_float :=
  match d with
  | S754_finite s m e => binary_round prec emax s m e
  | _ => d
  end.

Definition fadd (x y : spec_float) : spec_float := SFadd prec emax x y.
Definition dmul (abi : double_abi) (x y : spec_float) : spec_float :=
  SFmul (dprec abi) (demax abi) x y.
Definition ddiv (abi : double_abi) (x y : spec_float) : spec_float :=
  SFdiv (dprec abi) (demax abi) x y.

(** Conversion of a floating value to an integer: the fractional part is
    discarded (truncation toward zero). *)
Definition Ztrunc (f : spec_float) : Z :=
  match f with
  | S754_finite s m e =>
      let a := match e with
               | Zneg p => Z.shiftr (Zpos m) (Zpos p)
               | _ => Z.shiftl (Zpos m) e
               end in
      if s then - a else a
  | _ => 0
  end.

(** The exact rational value of a finite float. *)
Definition to_Q (f : spec_float) : Q :=
  match f with
  | S754_finite s m e =>
      let a := match e with
               | Zneg p => Zpos m # Pos.shiftl 1 (Npos p)
               | _ => inject_Z (Z.shiftl (Zpos m) e)
               end in
      if s then Qopp a else a
  | _ => 0%Q
  end.

End Float32.

(* ================================================================== *)
(** ** The microcontroller *)

Module ATtiny84.

(** The I/O registers named in the source. [PINA] and [ADCH] are inputs:
    their value is decided by the pins and by the converter. *)
Inductive reg :=
| CLKPR | MCUSR
| TCNT1 | OCR1A | ICR1 | TCCR1A | TCCR1B | TCCR1C | TIMSK1
| ADMUX | ADCSRA | ADCSRB | ADCH
| DDRA | PORTA | PINA | DDRB | PORTB.

Scheme Equality for reg.

(** Timer1's counter, compare and capture registers are 16 bits wide,
    every other register is one byte. *)
Definition width (r : reg) : Z :=
  match r with
  | TCNT1 | OCR1A | ICR1 => 16
  | _ => 8
  end.

(** What the foreground program does to the outside world, in program
    order. *)
Inductive event :=
| Store (r : reg) (v : Z)
| Load (r : reg) (v : Z)
| Sei
| Cli
| WdtDisable
| DelayMs (ms : Z).

Record machine := mkMachine {
  sfr : reg -> Z;            (* I/O register file *)
  SREG_I : bool;             (* global interrupt enable flag *)
  analog_readout : Z;        (* volatile uint8_t analog_readout *)
  temp : spec_float;         (* main: float temp *)
  center_manual_sw : Z;      (* main: uint8_t center_manual_sw *)
  prev_sw_state : Z;         (* main: uint8_t prev_sw_state *)
  trace : list event         (* I/O of the foreground program, oldest first *)
}.

(** Statements are state transformers. *)
Definition prog := machine -> machine.

Definition skip : prog := fun st => st.
Definition seqp (p q : prog) : prog := fun st => q (p st).
Definition ifte (c : machine -> bool) (p q : prog) : prog :=
  fun st => if c st then p st else q st.

Definition to_uint8 (z : Z) : Z := z mod 256.
Definition wrap (r : reg) (v : Z) : Z := v mod 2 ^ width r.

Definition emit (e : event) : prog := fun st =>
  mkMachine (sfr st) (SREG_I st) (analog_readout st) (temp st)
            (center_manual_sw st) (prev_sw_state st) (trace st ++ [e]).

Definition set_sfr (r : reg) (v : Z) : prog := fun st =>
  mkMachine (fun r' => if reg_beq r r' then v else sfr st r')
            (SREG_I st) (analog_readout st) (temp st)
            (center_manual_sw st) (prev_sw_state st) (trace st).

Definition set_SREG_I (b : bool) : prog := fun st =>
  mkMachine (sfr st) b (analog_readout st) (temp st)
            (center_manual_sw st) (prev_sw_state st) (trace st).

Definition set_analog_readout (v : Z) : prog := fun st =>
  mkMachine (sfr st) (SREG_I st) (to_uint8 v) (temp st)
            (center_manual_sw st) (prev_sw_state st) (trace st).

Definition set_temp (f : spec_float) : prog := fun st =>
  mkMachine (sfr st) (SREG_I st) (analog_readout st) f
            (center_manual_sw st) (prev_sw_state st) (trace st).

Definition set_center_manual_sw (v : Z) : prog := fun st =>
  mkMachine (sfr st) (SREG_I st) (analog_readout st) (temp st)
            (to_uint8 v) (prev_sw_state st) (trace st).

Definition set_prev_sw_state (v : Z) : prog := fun st =>
  mkMachine (sfr st) (SREG_I st) (analog_readout st) (temp st)
            (center_manual_sw st) (to_uint8 v) (trace st).

(** [R = v;] for an I/O register [R]. *)
Definition store (r : reg) (v : Z) : prog :=
  seqp (set_sfr r (wrap r v)) (emit (Store r (wrap r v))).

Definition sei : prog := seqp (set_SREG_I true) (emit Sei).
Definition cli : prog := seqp (set_SREG_I false) (emit Cli).
Definition wdt_disable : prog := emit WdtDisable.

(** The ADC data register. A conversion yields 10 bits; with [ADLAR]
    (bit 4 of [ADCSRB]) set the result is left adjusted in the 16-bit
    pair [ADCH:ADCL], so that [ADCH] holds bits 9..2; otherwise it is
    right adjusted and [ADCH] holds bits 9..8 (source, line 73: "result
    is left shifted into ADCH"). *)
Definition ADLAR : Z := 4.
Definition ADC_data (adcsrb conv : Z) : Z :=
  if Z.testbit adcsrb ADLAR
  then Z.shiftl (conv mod 1024) 6
  else conv mod 1024.
Definition ADCH_of (adcsrb conv : Z) : Z := Z.shiftr (ADC_data adcsrb conv) 8.

(** The conversion-complete interrupt is taken when the global flag and
    [ADIE] (bit 3 of [ADCSRA]) are set. *)
Definition ADIE : Z := 3.
Definition adc_irq_enabled (st : machine) : bool :=
  SREG_I st && Z.testbit (sfr st ADCSRA) ADIE.

End ATtiny84.

Declare Scope prog_scope.
Delimit Scope prog_scope with prog.
Notation "p ;; q" := (ATtiny84.seqp p q)
  (at level 61, right associativity) : prog_scope.
Notation "'IFB' c 'THEN' p 'ELSE' q" := (ATtiny84.ifte c p q)
  (at level 60, c at level 0, p at level 60, q at level 60) : prog_scope.

(* ================================================================== *)
(** ** The program *)

Module ServoTester.
Import Float32 ATtiny84.
Local Open Scope prog_scope.

(** IO ports initialization *)
Definition PA_DDR_INIT : Z := 0x40.      (* 0b01000000 *)
Definition PA_PUP_INIT : Z := 0x02.      (* 0b00000010 *)
Definition PA_INIT : Z := 0x00.
Definition PB_DDR_INIT : Z := 0x00.
Definition PB_PUP_INIT : Z := 0x00.
Definition PB_INIT : Z := 0x00.

(** Timer1 initialization *)
Definition TIM1_CTRLA : Z := 0x82.       (* 0b10000010 *)
Definition TIM1_CTRLB : Z := 0x1b.       (* 0b00011011 *)

(** ADC initialization *)
Definition ADMUX_INIT : Z := 0x00.
Definition ADCSRA_INIT : Z := 0xef.      (* 0b11101111 *)
Definition ADCSRB_INIT : Z := 0x10.      (* 0b00010000 *)

(** Timer1 constants for PWM *)
Definition SERVO_PERIOD : Z := 2499.
Definition PWM_LOW : Z := 123.
Definition PWM_CENTER : Z := 184.
Definition PWM_HIGH : Z := 246.
Definition PWM_INIT : Z := PWM_CENTER.
Definition PWM_RANGE : Z := PWM_HIGH - PWM_LOW.

(** Center-Manual switch position *)
Definition SET_CENTER : Z := 1.
Definition SET_MANUAL : Z := 0.

(** [ioinit()], lines 107-135. *)
Definition ioinit : prog :=
  store CLKPR 0x80 ;;
  store CLKPR 0x00 ;;
  store TCNT1 0 ;;
  store OCR1A PWM_INIT ;;
  store ICR1 SERVO_PERIOD ;;
  store TCCR1A TIM1_CTRLA ;;
  store TCCR1B TIM1_CTRLB ;;
  store TCCR1C 0 ;;
  store TIMSK1 0 ;;
  store ADMUX ADMUX_INIT ;;
  store ADCSRA ADCSRA_INIT ;;
  store ADCSRB ADCSRB_INIT ;;
  store DDRA PA_DDR_INIT ;;
  store PORTA (Z.lor PA_INIT PA_PUP_INIT) ;;
  store DDRB PB_DDR_INIT ;;
  store PORTB (Z.lor PB_INIT PB_PUP_INIT).

(** [reset()], lines 143-153; placed in [.init3], it runs before the
    globals are initialised and before [main]. *)
Definition reset : prog :=
  cli ;;
  store MCUSR 0 ;;
  wdt_disable.

(** [ISR(ADC_vect)], lines 160-163; [adch] is what [ADCH] reads. *)
Definition ADC_vect (adch : Z) : prog :=
  set_analog_readout adch.

(** A conversion with result [conv] completes: the handler runs if the
    interrupt is enabled. *)
Definition irq (conv : Z) : prog := fun st =>
  if adc_irq_enabled st
  then ADC_vect (ADCH_of (sfr st ADCSRB) conv) st
  else st.

(** The conversions of the list complete one after the other. *)
Definition service (convs : list Z) : prog := fun st =>
  fold_left (fun s c => irq c s) convs st.

(** [_delay_ms(ms)]: a busy wait, during which the conversions [convs]
    complete. *)
Definition _delay_ms (ms : Z) (convs : list Z) : prog :=
  emit (DelayMs ms) ;;
  service convs.

(** The places of the loop body where the handler can preempt it: before
    the statement that starts at the given source line. *)
Inductive point := L188 | L190 | L193 | L197 | L198 | L199 | L200 | L203.

Section Main.
Variable abi : double_abi.

(** The constant [(PWM_RANGE / 255.0)], of type [double]. *)
Definition PWM_SCALE : spec_float :=
  ddiv abi (double_of_Z abi PWM_RANGE) (double_of_Z abi 255).

(** Line 188: [center_manual_sw = ((PINA & 0b00000010) >> 1);] *)
Definition read_switch (pina : Z) : prog :=
  emit (Load PINA pina) ;;
  set_center_manual_sw (Z.shiftr (Z.land pina 0x02) 1).

(** Lines 190-191 and 195: the two conditions. *)
Definition entering_center (st : machine) : bool :=
  negb (center_manual_sw st =? prev_sw_state st)
  && (center_manual_sw st =? SET_CENTER).
Definition manual_selected (st : machine) : bool :=
  center_manual_sw st =? SET_MANUAL.

(** Line 197: [temp = (float)analog_readout;] *)
Definition load_sample : prog := fun st =>
  set_temp (float_of_Z (analog_readout st)) st.

(** Line 198: [temp = temp * (PWM_RANGE / 255.0);] the product is
    computed in [double] and converted back on assignment. *)
Definition scale_sample : prog := fun st =>
  set_temp (float_of_double
              (dmul abi (double_of_float abi (temp st)) PWM_SCALE)) st.

(** Line 199: [temp = temp + PWM_LOW;] *)
Definition offset_sample : prog := fun st =>
  set_temp (fadd (temp st) (float_of_Z PWM_LOW)) st.

(** Line 200: [OCR1A = (uint8_t)temp;] *)
Definition write_pulse : prog := fun st =>
  store OCR1A (to_uint8 (Ztrunc (temp st))) st.

(** Line 203: [prev_sw_state = center_manual_sw;] *)
Definition save_switch : prog := fun st =>
  set_prev_sw_state (center_manual_sw st) st.

(** One iteration of the [while (1)] loop, lines 188-203, when [PINA]
    reads [pina]. *)
Definition loop_body (pina : Z) : prog :=
  read_switch pina ;;
  (IFB entering_center THEN
     store OCR1A PWM_CENTER
   ELSE IFB manual_selected THEN
     (load_sample ;;
      scale_sample ;;
      offset_sample ;;
      write_pulse)
   ELSE
     skip) ;;
  save_switch.

(** The same iteration with the handler preempting it: the conversions
    [irqs p] complete just before the statement at [p]. *)
Definition loop_body_preempted (pina : Z) (irqs : point -> list Z) : prog :=
  service (irqs L188) ;;
  read_switch pina ;;
  service (irqs L190) ;;
  (IFB entering_center THEN
     (service (irqs L193) ;;
      store OCR1A PWM_CENTER)
   ELSE IFB manual_selected THEN
     (service (irqs L197) ;;
      load_sample ;;
      service (irqs L198) ;;
      scale_sample ;;
      service (irqs L199) ;;
      offset_sample ;;
      service (irqs L200) ;;
      write_pulse)
   ELSE
     skip) ;;
  service (irqs L203) ;;
  save_switch.

(** What happens once the loop is entered: a conversion completes
    between two iterations, or the loop body runs once, [PINA] reading
    [pina], preempted by the conversions [irqs]. *)
Inductive input :=
| AdcComplete (conv : Z)
| LoopIteration (pina : Z) (irqs : point -> list Z).

Definition react (i : input) : prog :=
  match i with
  | AdcComplete conv => irq conv
  | LoopIteration pina irqs => loop_body_preempted pina irqs
  end.

(** A finite prefix of the endless loop. *)
Definition run (inputs : list input) : prog := fun st =>
  fold_left (fun s i => react i s) inputs st.

(** [main()] up to the loop, lines 171-182; [convs] are the conversions
    that complete during the delay. *)
Definition main_startup (convs : list Z) : prog :=
  set_center_manual_sw SET_CENTER ;;
  set_prev_sw_state SET_MANUAL ;;
  ioinit ;;
  sei ;;
  _delay_ms 2000 convs.

(** [main()], lines 169-207: the startup, then the loop, of which a run
    sees a finite prefix. *)
Definition main (convs : list Z) (inputs : list input) : prog :=
  main_startup convs ;;
  run inputs.

(** From the reset vector to the first loop iteration: [reset()], the
    initialisation of the global [analog_readout], and [main()] up to the
    loop. *)
Definition boot (convs : list Z) : prog :=
  reset ;;
  set_analog_readout 0 ;;
  main_startup convs.

(** The value line 200 stores for the sample [s]: lines 197-200 as one
    expression. *)
Definition manual_temp (s : Z) : spec_float :=
  fadd (float_of_double
          (dmul abi (double_of_float abi (float_of_Z s)) PWM_SCALE))
       (float_of_Z PWM_LOW).
Definition manual_pulse (s : Z) : Z :=
  to_uint8 (Ztrunc (manual_temp s)).

End Main.

(** The state of the chip at power-on: all registers cleared. *)
Definition power_on : machine :=
  mkMachine (fun _ => 0) false 0 (S754_zero false) 0 0 [].

(** The samples an 8-bit register can hold. *)
Definition samples : list Z := map Z.of_nat (seq 0 256).

(** The pulse width the specification asks for:
    floor (PWM_LOW + s * (PWM_HIGH - PWM_LOW) / 255). *)
Definition spec_pulse (s : Z) : Z :=
  Qfloor (inject_Z PWM_LOW
          + inject_Z s * (inject_Z (PWM_HIGH - PWM_LOW) / inject_Z 255))%Q.

(** A pulse width the servo may be driven with. *)
Definition pulse_ok (v : Z) : Prop := PWM_LOW <= v <= PWM_HIGH.

Definition stores_to (r : reg) (tr : list event) : list Z :=
  flat_map (fun e => match e with
                     | Store r' v => if reg_beq r r' then [v] else []
                     | _ => []
                     end) tr.

(** What the switch pin [PA1] reads. *)
Definition center_reading (pina : Z) : Prop := Z.testbit pina 1 = true.
Definition manual_reading (pina : Z) : Prop := Z.testbit pina 1 = false.

Definition center_input (i : input) : Prop :=
  match i with
  | AdcComplete _ => True
  | LoopIteration pina _ => center_reading pina
  end.

(** An iteration that no conversion preempts. *)
Definition no_irqs : point -> list Z := fun _ => [].

(** [st'] differs from [st] in [analog_readout] at most. *)
Definition same_but_sample (st st' : machine) : Prop :=
  sfr st' = sfr st
  /\ SREG_I st' = SREG_I st
  /\ temp st' = temp st
  /\ center_manual_sw st' = center_manual_sw st
  /\ prev_sw_state st' = prev_sw_state st
  /\ trace st' = trace st.

(** A statement that neither reads [analog_readout] nor changes what
    decides whether and how the handler runs. *)
Definition sample_independent (p : prog) : Prop :=
  (forall v st, p (ADC_vect v st) = ADC_vect v (p st))
  /\ (forall st, adc_irq_enabled (p st) = adc_irq_enabled st)
  /\ (forall st, sfr (p st) ADCSRB = sfr st ADCSRB).

(** In the trace [tr], [e1] happens before [e2] happens for the first
    time. *)
Definition precedes (e1 e2 : event) (tr : list event) : Prop :=
  exists a b, tr = a ++ e1 :: b /\ ~ In e2 a /\ In e2 b.

(** The state in which line 197 reads [analog_readout], in an iteration
    preempted by [irqs]. *)
Definition at_line_197 (pina : Z) (irqs : point -> list Z) : prog :=
  (service (irqs L188) ;;
   read_switch pina ;;
   service (irqs L190) ;;
   service (irqs L197))%prog.

(** The program from the reset vector up to, and without, [sei()]. *)
Definition before_sei : prog :=
  (reset ;;
   set_analog_readout 0 ;;
   set_center_manual_sw SET_CENTER ;;
   set_prev_sw_state SET_MANUAL ;;
   ioinit)%prog.

(** What the initialised chip is configured to do with a conversion:
    interrupts on, handler enabled, result left adjusted. *)
Definition adc_running (st : machine) : Prop :=
  SREG_I st = true
  /\ sfr st ADCSRA = ADCSRA_INIT
  /\ sfr st ADCSRB = ADCSRB_INIT.

(** The servo is driven inside its range, and always was. *)
Definition safe (st : machine) : Prop :=
  pulse_ok (sfr st OCR1A)
  /\ 0 <= analog_readout st <= 255
  /\ Forall pulse_ok (stores_to OCR1A (trace st)).

(** While the remembered switch position is Center the servo is
    centered. *)
Definition centered (st : machine) : Prop :=
  prev_sw_state st = SET_CENTER -> sfr st OCR1A = PWM_CENTER.

(** *** Startup, statement by statement *)

(** The statements executed from the reset vector up to [sei()]:
    [reset()], the initialisation of [analog_readout], the two initialised
    locals of [main()] and the body of [ioinit()]. *)
Definition startup_statements : list prog :=
  [ cli; store MCUSR 0; wdt_disable;
    set_analog_readout 0;
    set_center_manual_sw SET_CENTER; set_prev_sw_state SET_MANUAL;
    store CLKPR 0x80; store CLKPR 0x00;
    store TCNT1 0; store OCR1A PWM_INIT; store ICR1 SERVO_PERIOD;
    store TCCR1A TIM1_CTRLA; store TCCR1B TIM1_CTRLB; store TCCR1C 0;
    store TIMSK1 0;
    store ADMUX ADMUX_INIT; store ADCSRA ADCSRA_INIT; store ADCSRB ADCSRB_INIT;
    store DDRA PA_DDR_INIT; store PORTA (Z.lor PA_INIT PA_PUP_INIT);
    store DDRB PB_DDR_INIT; store PORTB (Z.lor PB_INIT PB_PUP_INIT) ].

Definition run_statements (ps : list prog) : prog := fun st =>
  fold_left (fun s p => p s) ps st.

(** The statements [ps] with conversions completing in between: those of
    [irqs k] just before the statement number [k]. *)
Fixpoint run_preempted (irqs : nat -> list Z) (k : nat) (ps : list prog)
         (st : machine) : machine :=
  match ps with
  | [] => st
  | p :: ps' => run_preempted irqs (S k) ps' (p (service (irqs k) st))
  end.

(** A statement that does not turn interrupts on. *)
Definition keeps_interrupts_off (p : prog) : Prop :=
  forall st, SREG_I st = false -> SREG_I (p st) = false.

(** *** What a run does to the outside *)

(** The I/O of the loop: it reads [PINA] and writes [OCR1A]. *)
Definition loop_io (e : event) : Prop :=
  match e with
  | Load PINA _ => True
  | Store OCR1A _ => True
  | _ => False
  end.

Definition loads_of (r : reg) (tr : list event) : list Z :=
  flat_map (fun e => match e with
                     | Load r' v => if reg_beq r r' then [v] else []
                     | _ => []
                     end) tr.

(** The number of loop iterations among the inputs of a run. *)
Definition iterations (inputs : list input) : nat :=
  length (filter (fun i => match i with
                           | LoopIteration _ _ => true
                           | AdcComplete _ => false
                           end) inputs).

(** The byte the handler stores for the 10-bit conversion [conv] once
    [ioinit] has run: bits 9..2. *)
Definition top8 (conv : Z) : Z := Z.shiftr (conv mod 1024) 2.

(** The sample line 197 reads in an iteration started in [st], when the
    conversions [before] complete between the start and line 197. *)
Definition latest_sample (before : list Z) (st : machine) : Z :=
  match before with
  | [] => analog_readout st
  | _ => top8 (last before 0)
  end.

(** Two states that differ in [main]'s scratch variable [temp] at most. *)
Definition agree_but_temp (a b : machine) : Prop :=
  (forall r, sfr a r = sfr b r)
  /\ SREG_I a = SREG_I b
  /\ analog_readout a = analog_readout b
  /\ center_manual_sw a = center_manual_sw b
  /\ prev_sw_state a = prev_sw_state b
  /\ trace a = trace b.

(** The pulse widths of the servo's range. *)
Definition pulses : list Z := map (fun n => PWM_LOW + Z.of_nat n) (List.seq 0 124).

End ServoTester.

(* ================================================================== *)
(** ** Arithmetic of the Manual-mode scaling *)

Import Float32 ATtiny84 ServoTester.

Lemma samples_complete (s : Z) : 0 <= s <= 255 -> In s samples.
Proof.
  intros Hs. unfold samples.
  replace s with (Z.of_nat (Z.to_nat s)) by lia.
  apply in_map, in_seq. lia.
Qed.

(** A check that holds on each of the 256 samples holds on any sample. *)
Lemma for_all_samples (P : Z -> bool) :
  forallb P samples = true -> forall s, 0 <= s <= 255 -> P s = true.
Proof.
  intros Hall s Hs.
  rewrite forallb_forall in Hall. apply Hall, samples_complete, Hs.
Qed.

(** Lines 197-200 yield the floor of the exact value, whichever width
    [double] has. *)
Lemma manual_pulse_exact (abi : double_abi) (s : Z) :
  0 <= s <= 255 -> manual_pulse abi s = spec_pulse s.
Proof.
  intros Hs. apply Z.eqb_eq. revert s Hs.
  apply for_all_samples. destruct abi; vm_compute; reflexivity.
Qed.

(** The integer part of the float result is already a valid pulse width. *)
Lemma manual_temp_range (abi : double_abi) (s : Z) :
  0 <= s <= 255 ->
  PWM_LOW <= Ztrunc (manual_temp abi s) <= PWM_HIGH.
Proof.
  intros Hs.
  assert (H : (PWM_LOW <=? Ztrunc (manual_temp abi s))
              && (Ztrunc (manual_temp abi s) <=? PWM_HIGH) = true).
  { revert s Hs. apply for_all_samples. destruct abi; vm_compute; reflexivity. }
  apply andb_true_iff in H. lia.
Qed.

(** The float result is a positive finite number and [Ztrunc] is the floor
    of its exact value. *)
Lemma manual_temp_floor (abi : double_abi) (s : Z) :
  0 <= s <= 255 ->
  Ztrunc (manual_temp abi s) = Qfloor (to_Q (manual_temp abi s)).
Proof.
  intros Hs. apply Z.eqb_eq. revert s Hs.
  apply for_all_samples. destruct abi; vm_compute; reflexivity.
Qed.

Lemma spec_pulse_div (s : Z) : spec_pulse s = PWM_LOW + s * 123 / 255.
Proof.
  unfold spec_pulse, PWM_LOW, PWM_HIGH.
  cbn -[Z.mul Z.add Z.div].
  replace (123 * 255 + s * ((246 - 123) * 1) * 1) with (s * 123 + 123 * 255)
    by lia.
  rewrite Z.div_add by lia. lia.
Qed.

(* ================================================================== *)
(** ** The loop body, path by path *)

Local Open Scope prog_scope.

Ltac unfold_prog :=
  unfold loop_body, loop_body_preempted, read_switch, save_switch,
    load_sample, scale_sample, offset_sample, write_pulse, ADC_vect,
    store, sei, cli, wdt_disable, emit, set_sfr, set_SREG_I,
    set_analog_readout, set_temp, set_center_manual_sw, set_prev_sw_state,
    seqp, ifte, skip, entering_center, manual_selected;
  cbn [sfr SREG_I analog_readout temp center_manual_sw prev_sw_state trace].

Lemma switch_bit (pina : Z) :
  Z.shiftr (Z.land pina 0x02) 1 = Z.b2z (Z.testbit pina 1).
Proof.
  apply Z.bits_inj'. intros n Hn.
  rewrite Z.shiftr_spec, Z.land_spec by lia.
  destruct (Z.eq_dec n 0) as [->|Hn0].
  - change (Z.testbit 2 (0 + 1)) with true.
    rewrite andb_true_r, Z.b2z_bit0. reflexivity.
  - change 2 with (2 ^ 1). rewrite Z.pow2_bits_false, andb_false_r by lia.
    destruct (Z.testbit pina 1); cbn [Z.b2z].
    + change 1 with (2 ^ 0). rewrite Z.pow2_bits_false by lia. reflexivity.
    + rewrite Z.bits_0. reflexivity.
Qed.

Lemma read_switch_mode (pina : Z) (st : machine) :
  center_manual_sw (read_switch pina st)
  = if Z.testbit pina 1 then SET_CENTER else SET_MANUAL.
Proof.
  unfold_prog. rewrite switch_bit.
  destruct (Z.testbit pina 1); reflexivity.
Qed.

(** The three paths through the loop body. *)
Lemma loop_body_edge (abi : double_abi) (pina : Z) (st : machine) :
  center_reading pina -> prev_sw_state st <> SET_CENTER ->
  loop_body abi pina st
  = (read_switch pina ;; store OCR1A PWM_CENTER ;; save_switch) st.
Proof.
  intros Hc Hp. unfold loop_body, seqp, ifte.
  unfold entering_center. rewrite read_switch_mode, Hc.
  replace (prev_sw_state (read_switch pina st)) with (prev_sw_state st)
    by reflexivity.
  destruct (Z.eqb_spec SET_CENTER (prev_sw_state st)) as [E|E];
    [congruence | reflexivity].
Qed.

Lemma loop_body_hold (abi : double_abi) (pina : Z) (st : machine) :
  center_reading pina -> prev_sw_state st = SET_CENTER ->
  loop_body abi pina st = (read_switch pina ;; save_switch) st.
Proof.
  intros Hc Hp. unfold loop_body, seqp, ifte.
  unfold entering_center, manual_selected.
  rewrite read_switch_mode, Hc.
  replace (prev_sw_state (read_switch pina st)) with (prev_sw_state st)
    by reflexivity.
  rewrite Hp. reflexivity.
Qed.

Lemma loop_body_manual (abi : double_abi) (pina : Z) (st : machine) :
  manual_reading pina ->
  loop_body abi pina st
  = (read_switch pina ;; load_sample ;; scale_sample abi ;; offset_sample ;;
     write_pulse ;; save_switch) st.
Proof.
  intros Hm. unfold loop_body, seqp, ifte.
  unfold entering_center, manual_selected.
  rewrite read_switch_mode, Hm. rewrite andb_false_r. reflexivity.
Qed.

Lemma wrap_pulse (v : Z) : wrap OCR1A (to_uint8 v) = to_uint8 v.
Proof.
  unfold wrap, to_uint8, width. apply Z.mod_small.
  pose proof (Z.mod_pos_bound v 256). lia.
Qed.

Lemma manual_pulse_wrap (abi : double_abi) (s : Z) :
  wrap OCR1A (manual_pulse abi s) = manual_pulse abi s.
Proof. apply wrap_pulse. Qed.

Lemma manual_path_pulse (abi : double_abi) (pina : Z) (st : machine) :
  sfr ((read_switch pina ;; load_sample ;; scale_sample abi ;; offset_sample ;;
        write_pulse ;; save_switch) st) OCR1A
  = wrap OCR1A (manual_pulse abi (analog_readout st)).
Proof. reflexivity. Qed.

Lemma manual_path_trace (abi : double_abi) (pina : Z) (st : machine) :
  trace ((read_switch pina ;; load_sample ;; scale_sample abi ;; offset_sample ;;
          write_pulse ;; save_switch) st)
  = (trace st ++ [Load PINA pina])
    ++ [Store OCR1A (wrap OCR1A (manual_pulse abi (analog_readout st)))].
Proof. reflexivity. Qed.

(* ================================================================== *)
(** ** The handler and the foreground program *)

Lemma irq_frame (conv : Z) (st : machine) : same_but_sample st (irq conv st).
Proof.
  unfold irq. destruct (adc_irq_enabled st); repeat split; reflexivity.
Qed.

Lemma same_but_sample_trans (a b c : machine) :
  same_but_sample a b -> same_but_sample b c -> same_but_sample a c.
Proof.
  unfold same_but_sample. intuition congruence.
Qed.

Lemma service_frame (convs : list Z) (st : machine) :
  same_but_sample st (service convs st).
Proof.
  revert st. induction convs as [|c cs IH]; intros st.
  - repeat split; reflexivity.
  - apply same_but_sample_trans with (irq c st); [apply irq_frame | apply IH].
Qed.

Lemma service_app (a b : list Z) (st : machine) :
  service (a ++ b) st = service b (service a st).
Proof. unfold service. apply fold_left_app. Qed.

(** Servicing a run of conversions leaves the last one in place. *)
Lemma service_last (convs : list Z) (st : machine) :
  service convs st
  = match convs with
    | [] => st
    | _ => if adc_irq_enabled st
           then ADC_vect (ADCH_of (sfr st ADCSRB) (last convs 0)) st
           else st
    end.
Proof.
  revert st. induction convs as [|c cs IH]; intros st; [reflexivity|].
  change (service (c :: cs) st) with (service cs (irq c st)).
  rewrite IH. destruct cs as [|c' cs]; [reflexivity|].
  unfold irq. destruct (adc_irq_enabled st) eqn:E.
  - replace (adc_irq_enabled (ADC_vect (ADCH_of (sfr st ADCSRB) c) st))
      with true by (symmetry; exact E).
    reflexivity.
  - rewrite E. reflexivity.
Qed.

Lemma service_commute (p : prog) :
  sample_independent p ->
  forall convs st, service convs (p st) = p (service convs st).
Proof.
  intros (Hc & He & Hb) convs st.
  rewrite !service_last. destruct convs as [|c cs]; [reflexivity|].
  rewrite He, Hb. destruct (adc_irq_enabled st); [|reflexivity].
  symmetry. apply Hc.
Qed.

Lemma independent_read_switch (pina : Z) : sample_independent (read_switch pina).
Proof. repeat split. Qed.

Lemma independent_scale (abi : double_abi) : sample_independent (scale_sample abi).
Proof. repeat split. Qed.

Lemma independent_offset : sample_independent offset_sample.
Proof. repeat split. Qed.

Lemma independent_write : sample_independent write_pulse.
Proof. repeat split. Qed.

Lemma independent_store_pulse (v : Z) : sample_independent (store OCR1A v).
Proof. repeat split. Qed.

Lemma independent_save : sample_independent save_switch.
Proof. repeat split. Qed.

(** The handler does not change what the loop's conditions read. *)
Lemma service_entering_center (convs : list Z) (st : machine) :
  entering_center (service convs st) = entering_center st.
Proof.
  destruct (service_frame convs st) as (_ & _ & _ & Hc & Hp & _).
  unfold entering_center. rewrite Hc, Hp. reflexivity.
Qed.

Lemma service_manual_selected (convs : list Z) (st : machine) :
  manual_selected (service convs st) = manual_selected st.
Proof.
  destruct (service_frame convs st) as (_ & _ & _ & Hc & _).
  unfold manual_selected. rewrite Hc. reflexivity.
Qed.

Lemma read_switch_entering (pina : Z) (st : machine) :
  entering_center (read_switch pina st)
  = Z.testbit pina 1 && negb (prev_sw_state st =? SET_CENTER).
Proof.
  unfold entering_center. rewrite read_switch_mode.
  replace (prev_sw_state (read_switch pina st)) with (prev_sw_state st)
    by reflexivity.
  destruct (Z.testbit pina 1); cbn [andb].
  - rewrite andb_true_r, Z.eqb_sym. reflexivity.
  - apply andb_false_r.
Qed.

Lemma read_switch_manual (pina : Z) (st : machine) :
  manual_selected (read_switch pina st) = negb (Z.testbit pina 1).
Proof.
  unfold manual_selected. rewrite read_switch_mode.
  destruct (Z.testbit pina 1); reflexivity.
Qed.

(** *** Preemption is serialisable

    The loop body reads [analog_readout] once, at line 197, and the handler
    writes nothing else: an iteration that the handler preempts is an
    iteration that runs alone, with the conversions that completed up to
    line 197 before it and the remaining ones after it. *)

Lemma preempted_manual (abi : double_abi) (pina : Z) (irqs : point -> list Z)
      (st : machine) :
  manual_reading pina ->
  loop_body_preempted abi pina irqs st
  = service (irqs L198 ++ irqs L199 ++ irqs L200 ++ irqs L203)
      (loop_body abi pina
         (service (irqs L188 ++ irqs L190 ++ irqs L197) st)).
Proof.
  intros Hm. rewrite loop_body_manual by exact Hm.
  unfold loop_body_preempted, seqp, ifte.
  rewrite service_entering_center, service_manual_selected.
  rewrite read_switch_entering, read_switch_manual, Hm. cbn [andb negb].
  rewrite !service_app.
  rewrite (service_commute _ independent_save (irqs L198)).
  rewrite (service_commute _ independent_write (irqs L198)).
  rewrite (service_commute _ independent_offset (irqs L198)).
  rewrite (service_commute _ (independent_scale abi) (irqs L198)).
  rewrite (service_commute _ independent_save (irqs L199)).
  rewrite (service_commute _ independent_write (irqs L199)).
  rewrite (service_commute _ independent_offset (irqs L199)).
  rewrite (service_commute _ independent_save (irqs L200)).
  rewrite (service_commute _ independent_write (irqs L200)).
  rewrite (service_commute _ independent_save (irqs L203)).
  rewrite <- (service_commute _ (independent_read_switch pina) (irqs L197)).
  rewrite <- (service_commute _ (independent_read_switch pina) (irqs L190)).
  reflexivity.
Qed.

Lemma preempted_edge (abi : double_abi) (pina : Z) (irqs : point -> list Z)
      (st : machine) :
  center_reading pina -> prev_sw_state st <> SET_CENTER ->
  loop_body_preempted abi pina irqs st
  = service (irqs L190 ++ irqs L193 ++ irqs L203)
      (loop_body abi pina (service (irqs L188) st)).
Proof.
  intros Hc Hp.
  destruct (service_frame (irqs L188) st) as (_ & _ & _ & _ & Hprev & _).
  rewrite loop_body_edge by (rewrite ?Hprev; assumption).
  unfold loop_body_preempted, seqp, ifte.
  rewrite service_entering_center, read_switch_entering, Hc, Hprev.
  destruct (Z.eqb_spec (prev_sw_state st) SET_CENTER) as [E|_];
    [contradiction|]. cbn [andb negb].
  rewrite !service_app.
  rewrite (service_commute _ independent_save (irqs L190)).
  rewrite (service_commute _ (independent_store_pulse PWM_CENTER) (irqs L190)).
  rewrite (service_commute _ independent_save (irqs L193)).
  rewrite (service_commute _ (independent_store_pulse PWM_CENTER) (irqs L193)).
  rewrite (service_commute _ independent_save (irqs L203)).
  reflexivity.
Qed.

Lemma preempted_hold (abi : double_abi) (pina : Z) (irqs : point -> list Z)
      (st : machine) :
  center_reading pina -> prev_sw_state st = SET_CENTER ->
  loop_body_preempted abi pina irqs st
  = service (irqs L190 ++ irqs L203)
      (loop_body abi pina (service (irqs L188) st)).
Proof.
  intros Hc Hp.
  destruct (service_frame (irqs L188) st) as (_ & _ & _ & _ & Hprev & _).
  rewrite loop_body_hold by (rewrite ?Hprev; assumption).
  unfold loop_body_preempted, seqp, ifte.
  rewrite service_entering_center, service_manual_selected.
  rewrite read_switch_entering, read_switch_manual, Hc, Hprev, Hp.
  cbn [andb negb Z.eqb SET_CENTER Pos.eqb].
  rewrite !service_app.
  rewrite (service_commute _ independent_save (irqs L190)).
  rewrite (service_commute _ independent_save (irqs L203)).
  reflexivity.
Qed.

Lemma preempted_none (abi : double_abi) (pina : Z) (st : machine) :
  loop_body_preempted abi pina no_irqs st = loop_body abi pina st.
Proof. reflexivity. Qed.

(* ================================================================== *)
(** ** One iteration, field by field *)

Lemma loop_body_path (abi : double_abi) (pina : Z) (st : machine) :
  loop_body abi pina st
  = if Z.testbit pina 1
    then if prev_sw_state st =? SET_CENTER
         then (read_switch pina ;; save_switch) st
         else (read_switch pina ;; store OCR1A PWM_CENTER ;; save_switch) st
    else (read_switch pina ;; load_sample ;; scale_sample abi ;;
          offset_sample ;; write_pulse ;; save_switch) st.
Proof.
  destruct (Z.testbit pina 1) eqn:Hb.
  - destruct (Z.eqb_spec (prev_sw_state st) SET_CENTER) as [E|E].
    + apply loop_body_hold; assumption.
    + apply loop_body_edge; assumption.
  - apply loop_body_manual; assumption.
Qed.

Lemma loop_body_pulse (abi : double_abi) (pina : Z) (st : machine) :
  sfr (loop_body abi pina st) OCR1A
  = if Z.testbit pina 1
    then if prev_sw_state st =? SET_CENTER then sfr st OCR1A else PWM_CENTER
    else wrap OCR1A (manual_pulse abi (analog_readout st)).
Proof.
  rewrite loop_body_path.
  destruct (Z.testbit pina 1); [destruct (prev_sw_state st =? SET_CENTER)|];
    reflexivity.
Qed.

Lemma loop_body_trace (abi : double_abi) (pina : Z) (st : machine) :
  trace (loop_body abi pina st)
  = trace st ++ Load PINA pina ::
      (if Z.testbit pina 1
       then if prev_sw_state st =? SET_CENTER
            then []
            else [Store OCR1A PWM_CENTER]
       else [Store OCR1A (wrap OCR1A (manual_pulse abi (analog_readout st)))]).
Proof.
  rewrite loop_body_path.
  destruct (Z.testbit pina 1); [destruct (prev_sw_state st =? SET_CENTER)|].
  - reflexivity.
  - change (trace ((read_switch pina ;; store OCR1A PWM_CENTER ;; save_switch) st))
      with ((trace st ++ [Load PINA pina]) ++ [Store OCR1A PWM_CENTER]).
    rewrite <- app_assoc. reflexivity.
  - rewrite manual_path_trace, <- app_assoc. reflexivity.
Qed.

Lemma loop_body_modes (abi : double_abi) (pina : Z) (st : machine) :
  center_manual_sw (loop_body abi pina st)
  = (if Z.testbit pina 1 then SET_CENTER else SET_MANUAL)
  /\ prev_sw_state (loop_body abi pina st)
     = (if Z.testbit pina 1 then SET_CENTER else SET_MANUAL).
Proof.
  assert (Hsw : forall b : bool,
             Z.testbit pina 1 = b ->
             to_uint8 (Z.shiftr (Z.land pina 0x02) 1)
             = (if b then SET_CENTER else SET_MANUAL)
             /\ to_uint8 (to_uint8 (Z.shiftr (Z.land pina 0x02) 1))
                = (if b then SET_CENTER else SET_MANUAL)).
  { intros b Hb. rewrite switch_bit, Hb. destruct b; split; reflexivity. }
  rewrite loop_body_path.
  destruct (Z.testbit pina 1) eqn:Hb;
    [destruct (prev_sw_state st =? SET_CENTER)|];
    exact (Hsw _ eq_refl).
Qed.

Lemma loop_body_frame (abi : double_abi) (pina : Z) (st : machine) :
  analog_readout (loop_body abi pina st) = analog_readout st
  /\ SREG_I (loop_body abi pina st) = SREG_I st
  /\ forall r, r <> OCR1A -> sfr (loop_body abi pina st) r = sfr st r.
Proof.
  rewrite loop_body_path.
  destruct (Z.testbit pina 1); [destruct (prev_sw_state st =? SET_CENTER)|];
    (split; [reflexivity | split; [reflexivity|]]);
    intros r Hr; destruct r; try reflexivity; contradiction.
Qed.

Lemma stores_to_app (r : reg) (a b : list event) :
  stores_to r (a ++ b) = stores_to r a ++ stores_to r b.
Proof. unfold stores_to. apply flat_map_app. Qed.

(** *** Runs *)

Lemma react_serial (abi : double_abi) (i : input) (st : machine) :
  exists before after,
    react abi i st
    = match i with
      | AdcComplete _ => service after st
      | LoopIteration pina _ =>
          service after (loop_body abi pina (service before st))
      end.
Proof.
  destruct i as [conv | pina irqs]; cbn [react].
  - exists [], [conv]. reflexivity.
  - destruct (Z.testbit pina 1) eqn:Hb.
    + destruct (Z.eqb_spec (prev_sw_state st) SET_CENTER) as [E|E].
      * eexists _, _. apply preempted_hold; assumption.
      * eexists _, _. apply preempted_edge; assumption.
    + eexists _, _. apply preempted_manual; assumption.
Qed.

(** Every run of the program is a run of the loop from the state [boot]
    leaves. *)
Lemma main_after_boot (abi : double_abi) (convs : list Z)
      (inputs : list input) (hw : machine) :
  (reset ;; set_analog_readout 0 ;; main abi convs inputs) hw
  = run abi inputs (boot convs hw).
Proof. reflexivity. Qed.

Lemma run_cons (abi : double_abi) (i : input) (inputs : list input)
      (st : machine) :
  run abi (i :: inputs) st = run abi inputs (react abi i st).
Proof. reflexivity. Qed.

Lemma run_app (abi : double_abi) (a b : list input) (st : machine) :
  run abi (a ++ b) st = run abi b (run abi a st).
Proof. unfold run. apply fold_left_app. Qed.

(** A property that the handler and an unpreempted iteration preserve holds
    along every run. *)
Lemma run_invariant (abi : double_abi) (P : machine -> Prop) :
  (forall convs st, P st -> P (service convs st)) ->
  (forall pina st, P st -> P (loop_body abi pina st)) ->
  forall inputs st, P st -> P (run abi inputs st).
Proof.
  intros Hs Hl inputs. induction inputs as [|i inputs IH]; intros st HP.
  - exact HP.
  - rewrite run_cons. apply IH.
    destruct (react_serial abi i st) as (before & after & ->).
    destruct i; auto.
Qed.

(* ================================================================== *)
(** ** Invariants *)

Lemma service_sample_range (convs : list Z) (st : machine) :
  0 <= analog_readout st <= 255 ->
  0 <= analog_readout (service convs st) <= 255.
Proof.
  intros Hr. rewrite service_last. destruct convs as [|c cs]; [exact Hr|].
  destruct (adc_irq_enabled st); [|exact Hr].
  unfold_prog. unfold to_uint8.
  pose proof (Z.mod_pos_bound (ADCH_of (sfr st ADCSRB) (last (c :: cs) 0)) 256).
  lia.
Qed.

Lemma service_safe (convs : list Z) (st : machine) :
  safe st -> safe (service convs st).
Proof.
  intros (Hp & Hs & Ht).
  destruct (service_frame convs st) as (Hsfr & _ & _ & _ & _ & Htr).
  unfold safe. rewrite Hsfr, Htr.
  auto using service_sample_range.
Qed.

Lemma manual_pulse_ok (abi : double_abi) (s : Z) :
  0 <= s <= 255 -> pulse_ok (manual_pulse abi s).
Proof.
  intros Hs. pose proof (manual_temp_range abi s Hs) as Hr.
  unfold manual_pulse, to_uint8, pulse_ok.
  rewrite Z.mod_small; unfold PWM_LOW, PWM_HIGH in *; lia.
Qed.

Lemma pulse_ok_center : pulse_ok PWM_CENTER.
Proof. unfold pulse_ok, PWM_LOW, PWM_CENTER, PWM_HIGH. lia. Qed.

Lemma loop_body_safe (abi : double_abi) (pina : Z) (st : machine) :
  safe st -> safe (loop_body abi pina st).
Proof.
  intros (Hp & Hs & Ht).
  destruct (loop_body_frame abi pina st) as (Ha & _ & _).
  unfold safe.
  rewrite loop_body_pulse, loop_body_trace, Ha, stores_to_app, manual_pulse_wrap.
  pose proof (manual_pulse_ok abi _ Hs) as Hm.
  pose proof pulse_ok_center as Hc.
  split; [|split; [exact Hs|]].
  - destruct (Z.testbit pina 1); [destruct (prev_sw_state st =? SET_CENTER)|];
      assumption.
  - apply Forall_app. split; [exact Ht|].
    destruct (Z.testbit pina 1); [destruct (prev_sw_state st =? SET_CENTER)|];
      cbn; auto.
Qed.

Lemma service_centered (convs : list Z) (st : machine) :
  centered st -> centered (service convs st).
Proof.
  destruct (service_frame convs st) as (Hsfr & _ & _ & _ & Hprev & _).
  unfold centered. rewrite Hsfr, Hprev. auto.
Qed.

Lemma loop_body_centered (abi : double_abi) (pina : Z) (st : machine) :
  centered st -> centered (loop_body abi pina st).
Proof.
  unfold centered. intros Hc.
  destruct (loop_body_modes abi pina st) as (_ & ->).
  rewrite loop_body_pulse.
  destruct (Z.testbit pina 1); [|discriminate].
  destruct (Z.eqb_spec (prev_sw_state st) SET_CENTER); auto.
Qed.

Lemma service_adc_running (convs : list Z) (st : machine) :
  adc_running st -> adc_running (service convs st).
Proof.
  destruct (service_frame convs st) as (Hsfr & Hi & _).
  unfold adc_running. rewrite Hsfr, Hi. auto.
Qed.

Lemma loop_body_adc_running (abi : double_abi) (pina : Z) (st : machine) :
  adc_running st -> adc_running (loop_body abi pina st).
Proof.
  destruct (loop_body_frame abi pina st) as (_ & Hi & Hsfr).
  unfold adc_running. rewrite Hi, !Hsfr by discriminate. auto.
Qed.

(** *** The state the loop is entered in *)

Lemma trace_emit (e : event) (st : machine) :
  trace (emit e st) = trace st ++ [e].
Proof. reflexivity. Qed.

Lemma trace_store (r : reg) (v : Z) (st : machine) :
  trace (store r v st) = trace st ++ [Store r (wrap r v)].
Proof. reflexivity. Qed.

Lemma trace_sei (st : machine) : trace (sei st) = trace st ++ [Sei].
Proof. reflexivity. Qed.

Lemma trace_cli (st : machine) : trace (cli st) = trace st ++ [Cli].
Proof. reflexivity. Qed.

Lemma trace_wdt_disable (st : machine) :
  trace (wdt_disable st) = trace st ++ [WdtDisable].
Proof. reflexivity. Qed.

Lemma trace_set_analog_readout (v : Z) (st : machine) :
  trace (set_analog_readout v st) = trace st.
Proof. reflexivity. Qed.

Lemma trace_set_center_manual_sw (v : Z) (st : machine) :
  trace (set_center_manual_sw v st) = trace st.
Proof. reflexivity. Qed.

Lemma trace_set_prev_sw_state (v : Z) (st : machine) :
  trace (set_prev_sw_state v st) = trace st.
Proof. reflexivity. Qed.

Ltac step_trace :=
  repeat first
    [ rewrite trace_emit | rewrite trace_store | rewrite trace_sei
    | rewrite trace_cli | rewrite trace_wdt_disable
    | rewrite trace_set_analog_readout | rewrite trace_set_center_manual_sw
    | rewrite trace_set_prev_sw_state ].

Lemma boot_split (convs : list Z) (hw : machine) :
  boot convs hw = _delay_ms 2000 convs (sei (before_sei hw)).
Proof. reflexivity. Qed.

Lemma boot_frame (convs : list Z) (hw : machine) :
  same_but_sample (emit (DelayMs 2000) (sei (before_sei hw))) (boot convs hw).
Proof. rewrite boot_split. apply service_frame. Qed.

Lemma boot_trace (convs : list Z) (hw : machine) :
  trace (boot convs hw)
  = trace hw ++
    [Cli; Store MCUSR 0; WdtDisable;
     Store CLKPR 0x80; Store CLKPR 0x00;
     Store TCNT1 0; Store OCR1A PWM_CENTER; Store ICR1 SERVO_PERIOD;
     Store TCCR1A TIM1_CTRLA; Store TCCR1B TIM1_CTRLB; Store TCCR1C 0;
     Store TIMSK1 0;
     Store ADMUX ADMUX_INIT; Store ADCSRA ADCSRA_INIT; Store ADCSRB ADCSRB_INIT;
     Store DDRA PA_DDR_INIT; Store PORTA PA_PUP_INIT;
     Store DDRB PB_DDR_INIT; Store PORTB 0;
     Sei; DelayMs 2000].
Proof.
  destruct (boot_frame convs hw) as (_ & _ & _ & _ & _ & ->).
  unfold before_sei, ioinit, reset, seqp.
  step_trace. rewrite <- !app_assoc. reflexivity.
Qed.

Lemma boot_pulse (convs : list Z) (hw : machine) :
  sfr (boot convs hw) OCR1A = PWM_CENTER.
Proof.
  destruct (boot_frame convs hw) as (-> & _). reflexivity.
Qed.

Lemma boot_prev (convs : list Z) (hw : machine) :
  prev_sw_state (boot convs hw) = SET_MANUAL.
Proof.
  destruct (boot_frame convs hw) as (_ & _ & _ & _ & -> & _). reflexivity.
Qed.

Lemma boot_adc_running (convs : list Z) (hw : machine) :
  adc_running (boot convs hw).
Proof.
  destruct (boot_frame convs hw) as (Hsfr & Hi & _).
  unfold adc_running. rewrite Hsfr, Hi. repeat split.
Qed.

Lemma boot_safe (convs : list Z) (hw : machine) :
  trace hw = [] -> safe (boot convs hw).
Proof.
  intros Hhw. unfold safe.
  rewrite boot_pulse, boot_trace, Hhw.
  split; [apply pulse_ok_center | split].
  - rewrite boot_split. unfold _delay_ms, seqp.
    apply service_sample_range.
    change (analog_readout (emit (DelayMs 2000) (sei (before_sei hw))))
      with (to_uint8 0).
    unfold to_uint8. rewrite Z.mod_0_l; lia.
  - change (Forall pulse_ok [PWM_CENTER]).
    constructor; [apply pulse_ok_center | constructor].
Qed.

Lemma boot_centered (convs : list Z) (hw : machine) : centered (boot convs hw).
Proof. intros _. apply boot_pulse. Qed.

(* ================================================================== *)
(** ** A preempted iteration, field by field *)

Lemma at_line_197_serial (pina : Z) (irqs : point -> list Z) (st : machine) :
  at_line_197 pina irqs st
  = read_switch pina (service (irqs L188 ++ irqs L190 ++ irqs L197) st).
Proof.
  unfold at_line_197, seqp. rewrite !service_app.
  rewrite <- (service_commute _ (independent_read_switch pina) (irqs L197)).
  rewrite <- (service_commute _ (independent_read_switch pina) (irqs L190)).
  reflexivity.
Qed.

Lemma at_line_197_sample_range (pina : Z) (irqs : point -> list Z)
      (st : machine) :
  0 <= analog_readout st <= 255 ->
  0 <= analog_readout (at_line_197 pina irqs st) <= 255.
Proof.
  intros Hs. rewrite at_line_197_serial.
  change (analog_readout (read_switch pina ?x)) with (analog_readout x).
  apply service_sample_range, Hs.
Qed.

Lemma preempted_pulse (abi : double_abi) (pina : Z) (irqs : point -> list Z)
      (st : machine) :
  sfr (loop_body_preempted abi pina irqs st) OCR1A
  = if Z.testbit pina 1
    then if prev_sw_state st =? SET_CENTER then sfr st OCR1A else PWM_CENTER
    else manual_pulse abi (analog_readout (at_line_197 pina irqs st)).
Proof.
  destruct (Z.testbit pina 1) eqn:Hb.
  - destruct (service_frame (irqs L188) st) as (Hsfr & _ & _ & _ & Hprev & _).
    destruct (Z.eqb_spec (prev_sw_state st) SET_CENTER) as [E|E].
    + rewrite preempted_hold by assumption.
      destruct (service_frame (irqs L190 ++ irqs L203)
                  (loop_body abi pina (service (irqs L188) st))) as (-> & _).
      rewrite loop_body_pulse, Hb, Hprev, Hsfr, E. reflexivity.
    + rewrite preempted_edge by assumption.
      destruct (service_frame (irqs L190 ++ irqs L193 ++ irqs L203)
                  (loop_body abi pina (service (irqs L188) st))) as (-> & _).
      rewrite loop_body_pulse, Hb, Hprev.
      destruct (Z.eqb_spec (prev_sw_state st) SET_CENTER);
        [contradiction | reflexivity].
  - rewrite preempted_manual by assumption.
    destruct (service_frame (irqs L198 ++ irqs L199 ++ irqs L200 ++ irqs L203)
                (loop_body abi pina
                   (service (irqs L188 ++ irqs L190 ++ irqs L197) st)))
      as (-> & _).
    rewrite loop_body_pulse, Hb, manual_pulse_wrap, at_line_197_serial.
    reflexivity.
Qed.

Lemma preempted_trace (abi : double_abi) (pina : Z) (irqs : point -> list Z)
      (st : machine) :
  trace (loop_body_preempted abi pina irqs st)
  = trace st ++ Load PINA pina ::
      (if Z.testbit pina 1
       then if prev_sw_state st =? SET_CENTER
            then []
            else [Store OCR1A PWM_CENTER]
       else [Store OCR1A
               (manual_pulse abi (analog_readout (at_line_197 pina irqs st)))]).
Proof.
  destruct (Z.testbit pina 1) eqn:Hb.
  - destruct (service_frame (irqs L188) st)
      as (_ & _ & _ & _ & Hprev & Htr).
    destruct (Z.eqb_spec (prev_sw_state st) SET_CENTER) as [E|E].
    + rewrite preempted_hold by assumption.
      destruct (service_frame (irqs L190 ++ irqs L203)
                  (loop_body abi pina (service (irqs L188) st)))
        as (_ & _ & _ & _ & _ & ->).
      rewrite loop_body_trace, Hb, Hprev, Htr, E. reflexivity.
    + rewrite preempted_edge by assumption.
      destruct (service_frame (irqs L190 ++ irqs L193 ++ irqs L203)
                  (loop_body abi pina (service (irqs L188) st)))
        as (_ & _ & _ & _ & _ & ->).
      rewrite loop_body_trace, Hb, Hprev, Htr.
      destruct (Z.eqb_spec (prev_sw_state st) SET_CENTER);
        [contradiction | reflexivity].
  - rewrite preempted_manual by assumption.
    destruct (service_frame (irqs L198 ++ irqs L199 ++ irqs L200 ++ irqs L203)
                (loop_body abi pina
                   (service (irqs L188 ++ irqs L190 ++ irqs L197) st)))
      as (_ & _ & _ & _ & _ & ->).
    destruct (service_frame (irqs L188 ++ irqs L190 ++ irqs L197) st)
      as (_ & _ & _ & _ & _ & Htr).
    rewrite loop_body_trace, Hb, manual_pulse_wrap, at_line_197_serial, Htr.
    reflexivity.
Qed.

Lemma preempted_modes (abi : double_abi) (pina : Z) (irqs : point -> list Z)
      (st : machine) :
  center_manual_sw (loop_body_preempted abi pina irqs st)
  = (if Z.testbit pina 1 then SET_CENTER else SET_MANUAL)
  /\ prev_sw_state (loop_body_preempted abi pina irqs st)
     = (if Z.testbit pina 1 then SET_CENTER else SET_MANUAL).
Proof.
  destruct (react_serial abi (LoopIteration pina irqs) st)
    as (before & after & E).
  cbn [react] in E. rewrite E.
  destruct (service_frame after (loop_body abi pina (service before st)))
    as (_ & _ & _ & -> & -> & _).
  apply loop_body_modes.
Qed.

(* ================================================================== *)
(** ** Manual mode *)

(** C1. In an iteration where the switch reads Manual and the analog sample
    is [s], 0 <= s <= 255, [OCR1A] is written with exactly
    floor (PWM_LOW + s * (PWM_HIGH - PWM_LOW) / 255) = 123 + floor (s * 123 / 255):
    the fraction is cut off, not rounded. The samples 0, 128 and 255 give 123
    ([PWM_LOW]), 184 ([PWM_CENTER]) and 246 ([PWM_HIGH]). *)
Theorem manual_iteration_pulse_width
        (abi : double_abi) (pina : Z) (st : machine) :
  manual_reading pina ->
  0 <= analog_readout st <= 255 ->
  sfr (loop_body abi pina st) OCR1A = spec_pulse (analog_readout st)
  /\ spec_pulse (analog_readout st) = 123 + analog_readout st * 123 / 255
  /\ trace (loop_body abi pina st)
     = trace st ++ [Load PINA pina;
                    Store OCR1A (spec_pulse (analog_readout st))]
  /\ (analog_readout st = 0 -> sfr (loop_body abi pina st) OCR1A = PWM_LOW)
  /\ (analog_readout st = 128 -> sfr (loop_body abi pina st) OCR1A = PWM_CENTER)
  /\ (analog_readout st = 255 -> sfr (loop_body abi pina st) OCR1A = PWM_HIGH).
Proof.
  intros Hm Hs.
  assert (Hp : sfr (loop_body abi pina st) OCR1A
               = spec_pulse (analog_readout st)).
  { rewrite loop_body_pulse, Hm, manual_pulse_wrap.
    apply manual_pulse_exact, Hs. }
  split; [exact Hp|].
  split; [apply spec_pulse_div|].
  split.
  { rewrite loop_body_trace, Hm, manual_pulse_wrap.
    rewrite manual_pulse_exact by exact Hs. reflexivity. }
  split; [|split]; intros E; rewrite Hp, E; reflexivity.
Qed.

Lemma manual_iteration_pulse_width_witness :
  manual_reading 0
  /\ 0 <= analog_readout (boot [512] power_on) <= 255
  /\ sfr (loop_body Double32 0 (boot [512] power_on)) OCR1A = 184.
Proof.
  assert (Hm : manual_reading 0) by reflexivity.
  assert (Hs : 0 <= analog_readout (boot [512] power_on) <= 255)
    by (vm_compute; split; discriminate).
  split; [exact Hm | split; [exact Hs|]].
  exact (proj1 (manual_iteration_pulse_width Double32 0 (boot [512] power_on)
                  Hm Hs)).
Defined.

(** C9. For a sample [s] in 0..255 the integer part of the float result of
    lines 197-199 lies in 123..246; it fits in 8 bits, the cast to
    [uint8_t] does not wrap, and [OCR1A] receives that integer part, which
    is the floor of the exact value. *)
Theorem manual_cast_no_wrap (abi : double_abi) (pina : Z) (st : machine) :
  manual_reading pina ->
  0 <= analog_readout st <= 255 ->
  PWM_LOW <= Ztrunc (manual_temp abi (analog_readout st)) <= PWM_HIGH
  /\ 0 <= Ztrunc (manual_temp abi (analog_readout st)) < 2 ^ 8
  /\ to_uint8 (Ztrunc (manual_temp abi (analog_readout st)))
     = Ztrunc (manual_temp abi (analog_readout st))
  /\ Ztrunc (manual_temp abi (analog_readout st))
     = Qfloor (to_Q (manual_temp abi (analog_readout st)))
  /\ temp (loop_body abi pina st) = manual_temp abi (analog_readout st)
  /\ sfr (loop_body abi pina st) OCR1A
     = Ztrunc (manual_temp abi (analog_readout st))
  /\ Ztrunc (manual_temp abi (analog_readout st))
     = spec_pulse (analog_readout st).
Proof.
  intros Hm Hs.
  pose proof (manual_temp_range abi _ Hs) as Hr.
  unfold PWM_LOW, PWM_HIGH in Hr.
  assert (Hw : to_uint8 (Ztrunc (manual_temp abi (analog_readout st)))
               = Ztrunc (manual_temp abi (analog_readout st))).
  { unfold to_uint8. apply Z.mod_small. lia. }
  split; [unfold PWM_LOW, PWM_HIGH; lia|].
  split; [lia|].
  split; [exact Hw|].
  split; [apply manual_temp_floor, Hs|].
  split; [rewrite loop_body_manual by exact Hm; reflexivity|].
  split.
  - rewrite loop_body_pulse, Hm, manual_pulse_wrap. exact Hw.
  - rewrite <- Hw. apply manual_pulse_exact, Hs.
Qed.

Lemma manual_cast_no_wrap_witness :
  manual_reading 0
  /\ 0 <= analog_readout (boot [1023] power_on) <= 255
  /\ sfr (loop_body Double32 0 (boot [1023] power_on)) OCR1A
     = Ztrunc (manual_temp Double32 255).
Proof.
  assert (Hm : manual_reading 0) by reflexivity.
  assert (Hs : 0 <= analog_readout (boot [1023] power_on) <= 255)
    by (vm_compute; split; discriminate).
  split; [exact Hm | split; [exact Hs|]].
  exact (proj1 (proj2 (proj2 (proj2 (proj2 (proj2
    (manual_cast_no_wrap Double32 0 (boot [1023] power_on) Hm Hs))))))).
Defined.

(** C5. Whenever the switch reads Manual the loop body stores a pulse width
    computed from the sample that [analog_readout] holds when line 197
    reads it, whatever the previous switch position, whatever [OCR1A] held
    and whether or not the sample changed: one store per iteration, and
    nothing of the old value remains. *)
Theorem manual_recomputes_every_iteration
        (abi : double_abi) (pina : Z) (irqs : point -> list Z) (st : machine) :
  manual_reading pina ->
  0 <= analog_readout st <= 255 ->
  sfr (loop_body_preempted abi pina irqs st) OCR1A
  = spec_pulse (analog_readout (at_line_197 pina irqs st))
  /\ stores_to OCR1A (trace (loop_body_preempted abi pina irqs st))
     = stores_to OCR1A (trace st)
       ++ [spec_pulse (analog_readout (at_line_197 pina irqs st))]
  /\ sfr (loop_body abi pina st) OCR1A = spec_pulse (analog_readout st)
  /\ prev_sw_state (loop_body_preempted abi pina irqs st) = SET_MANUAL.
Proof.
  intros Hm Hs.
  pose proof (at_line_197_sample_range pina irqs st Hs) as Hs'.
  split; [|split; [|split]].
  - rewrite preempted_pulse, Hm. apply manual_pulse_exact, Hs'.
  - rewrite preempted_trace, Hm, stores_to_app.
    rewrite manual_pulse_exact by exact Hs'. reflexivity.
  - rewrite loop_body_pulse, Hm, manual_pulse_wrap.
    apply manual_pulse_exact, Hs.
  - destruct (preempted_modes abi pina irqs st) as (_ & ->).
    rewrite Hm. reflexivity.
Qed.

Lemma manual_recomputes_every_iteration_witness :
  manual_reading 0
  /\ 0 <= analog_readout (loop_body Double32 2 (boot [] power_on)) <= 255
  /\ sfr (loop_body_preempted Double32 0
            (fun p => match p with L190 => [1023] | _ => [] end)
            (loop_body Double32 2 (boot [] power_on))) OCR1A
     = 246.
Proof.
  assert (Hm : manual_reading 0) by reflexivity.
  assert (Hs : 0 <= analog_readout (loop_body Double32 2 (boot [] power_on))
               <= 255) by (vm_compute; split; discriminate).
  split; [exact Hm | split; [exact Hs|]].
  exact (proj1 (manual_recomputes_every_iteration Double32 0
                  (fun p => match p with L190 => [1023] | _ => [] end)
                  (loop_body Double32 2 (boot [] power_on)) Hm Hs)).
Defined.

(* ================================================================== *)
(** ** Center mode *)

(** C3. In an iteration where the switch reads Center, [OCR1A] is written
    with [PWM_CENTER] in that iteration if the remembered position is not
    Center, and it is not written at all if the remembered position is
    Center. *)
Theorem center_edge_write
        (abi : double_abi) (pina : Z) (irqs : point -> list Z) (st : machine) :
  center_reading pina ->
  (prev_sw_state st <> SET_CENTER ->
   sfr (loop_body_preempted abi pina irqs st) OCR1A = PWM_CENTER
   /\ trace (loop_body_preempted abi pina irqs st)
      = trace st ++ [Load PINA pina; Store OCR1A PWM_CENTER])
  /\ (prev_sw_state st = SET_CENTER ->
      sfr (loop_body_preempted abi pina irqs st) OCR1A = sfr st OCR1A
      /\ trace (loop_body_preempted abi pina irqs st)
         = trace st ++ [Load PINA pina]).
Proof.
  intros Hc.
  rewrite preempted_pulse, preempted_trace, Hc.
  split; intros Hp.
  - destruct (Z.eqb_spec (prev_sw_state st) SET_CENTER);
      [contradiction | split; reflexivity].
  - rewrite Hp. split; reflexivity.
Qed.

Lemma center_edge_write_witness :
  center_reading 2
  /\ prev_sw_state (boot [] power_on) <> SET_CENTER
  /\ sfr (loop_body_preempted Double32 2 no_irqs (boot [] power_on)) OCR1A
     = PWM_CENTER.
Proof.
  assert (Hc : center_reading 2) by reflexivity.
  assert (Hp : prev_sw_state (boot [] power_on) <> SET_CENTER)
    by (vm_compute; discriminate).
  split; [exact Hc | split; [exact Hp|]].
  exact (proj1 (proj1 (center_edge_write Double32 2 no_irqs
                         (boot [] power_on) Hc) Hp)).
Defined.

(** C10. [prev_sw_state] is Manual when the loop is entered, so a first
    iteration that finds the switch at Center (the position the pull-up on
    [PA1] gives an open switch) sees an edge and writes [PWM_CENTER] to
    [OCR1A] once more. *)
Theorem first_iteration_recenters
        (abi : double_abi) (hw : machine) (convs : list Z)
        (pina : Z) (irqs : point -> list Z) :
  center_reading pina ->
  prev_sw_state (boot convs hw) = SET_MANUAL
  /\ Z.testbit (sfr (boot convs hw) PORTA) 1 = true
  /\ sfr (loop_body_preempted abi pina irqs (boot convs hw)) OCR1A = PWM_CENTER
  /\ trace (loop_body_preempted abi pina irqs (boot convs hw))
     = trace (boot convs hw) ++ [Load PINA pina; Store OCR1A PWM_CENTER].
Proof.
  intros Hc. split; [apply boot_prev|]. split.
  - destruct (boot_frame convs hw) as (-> & _). reflexivity.
  - rewrite preempted_pulse, preempted_trace, Hc, boot_prev.
    split; reflexivity.
Qed.

Lemma first_iteration_recenters_witness :
  center_reading 2
  /\ sfr (loop_body_preempted Double32 2 no_irqs (boot [300] power_on)) OCR1A
     = PWM_CENTER.
Proof.
  assert (Hc : center_reading 2) by reflexivity.
  split; [exact Hc|].
  exact (proj1 (proj2 (proj2
    (first_iteration_recenters Double32 power_on [300] 2 no_irqs Hc)))).
Defined.

(* ================================================================== *)
(** ** The switch *)

(** C6. Each iteration reads [PINA] once; bit 1 set gives Center
    ([SET_CENTER]), bit 1 clear gives Manual ([SET_MANUAL]); when the
    iteration ends [prev_sw_state] holds the position just read. *)
Theorem switch_mapping_and_memory
        (abi : double_abi) (pina : Z) (irqs : point -> list Z) (st : machine) :
  center_manual_sw (loop_body_preempted abi pina irqs st)
  = (if Z.testbit pina 1 then SET_CENTER else SET_MANUAL)
  /\ center_manual_sw (read_switch pina st)
     = (if Z.testbit pina 1 then SET_CENTER else SET_MANUAL)
  /\ prev_sw_state (loop_body_preempted abi pina irqs st)
     = center_manual_sw (loop_body_preempted abi pina irqs st)
  /\ exists rest,
      trace (loop_body_preempted abi pina irqs st)
      = trace st ++ Load PINA pina :: rest
      /\ forall r v, ~ In (Load r v) rest.
Proof.
  destruct (preempted_modes abi pina irqs st) as (Hcur & Hprev).
  split; [exact Hcur|]. split; [apply read_switch_mode|].
  split; [congruence|].
  rewrite preempted_trace. eexists. split; [reflexivity|].
  intros r v.
  destruct (Z.testbit pina 1); [destruct (prev_sw_state st =? SET_CENTER)|];
    cbn; intuition discriminate.
Qed.

Lemma react_center_hold (abi : double_abi) (i : input) (st : machine) :
  center_input i -> prev_sw_state st = SET_CENTER ->
  sfr (react abi i st) OCR1A = sfr st OCR1A
  /\ stores_to OCR1A (trace (react abi i st)) = stores_to OCR1A (trace st)
  /\ prev_sw_state (react abi i st) = SET_CENTER.
Proof.
  intros Hi Hp. destruct i as [conv | pina irqs]; cbn [react center_input] in *.
  - destruct (irq_frame conv st) as (-> & _ & _ & _ & -> & ->). auto.
  - destruct (preempted_modes abi pina irqs st) as (_ & ->).
    rewrite preempted_pulse, preempted_trace, Hi, Hp, stores_to_app.
    cbn. rewrite app_nil_r. auto.
Qed.

Lemma run_center_hold (abi : double_abi) (inputs : list input) (st : machine) :
  Forall center_input inputs -> prev_sw_state st = SET_CENTER ->
  sfr (run abi inputs st) OCR1A = sfr st OCR1A
  /\ stores_to OCR1A (trace (run abi inputs st)) = stores_to OCR1A (trace st)
  /\ prev_sw_state (run abi inputs st) = SET_CENTER.
Proof.
  intros Hall. revert st.
  induction Hall as [|i inputs Hi _ IH]; intros st Hp; [auto|].
  rewrite run_cons.
  destruct (react_center_hold abi i st Hi Hp) as (Hsfr & Htr & Hp').
  destruct (IH _ Hp') as (-> & -> & ->). auto.
Qed.

(** C4. When the remembered switch position is Center, iterations that read
    Center again, however many and however the handler interleaves with
    them, write nothing to [OCR1A] and leave it as it is; in a state the
    program can reach that value is [PWM_CENTER]. *)
Theorem center_hold_idempotent
        (abi : double_abi) (st : machine) (inputs : list input) :
  prev_sw_state st = SET_CENTER ->
  Forall center_input inputs ->
  sfr (run abi inputs st) OCR1A = sfr st OCR1A
  /\ stores_to OCR1A (trace (run abi inputs st)) = stores_to OCR1A (trace st)
  /\ prev_sw_state (run abi inputs st) = SET_CENTER
  /\ forall hw convs history,
      st = run abi history (boot convs hw) ->
      sfr st OCR1A = PWM_CENTER
      /\ sfr (run abi inputs st) OCR1A = PWM_CENTER.
Proof.
  intros Hp Hall.
  destruct (run_center_hold abi inputs st Hall Hp) as (Hsfr & Htr & Hp').
  split; [exact Hsfr|]. split; [exact Htr|]. split; [exact Hp'|].
  intros hw convs history E.
  assert (Hc : sfr st OCR1A = PWM_CENTER).
  { subst st. revert Hp.
    apply (run_invariant abi centered);
      auto using service_centered, loop_body_centered, boot_centered. }
  split; [exact Hc | rewrite Hsfr; exact Hc].
Qed.

Lemma center_hold_idempotent_witness :
  prev_sw_state (run Double32 [LoopIteration 2 no_irqs] (boot [] power_on))
  = SET_CENTER
  /\ Forall center_input
       [LoopIteration 2 no_irqs; AdcComplete 700; LoopIteration 6 no_irqs]
  /\ sfr (run Double32
            [LoopIteration 2 no_irqs; AdcComplete 700; LoopIteration 6 no_irqs]
            (run Double32 [LoopIteration 2 no_irqs] (boot [] power_on))) OCR1A
     = sfr (run Double32 [LoopIteration 2 no_irqs] (boot [] power_on)) OCR1A.
Proof.
  assert (Hp : prev_sw_state
                 (run Double32 [LoopIteration 2 no_irqs] (boot [] power_on))
               = SET_CENTER) by (vm_compute; reflexivity).
  assert (Hall : Forall center_input
                   [LoopIteration 2 no_irqs; AdcComplete 700;
                    LoopIteration 6 no_irqs]).
  { constructor; [reflexivity|].
    constructor; [exact I|].
    constructor; [reflexivity | constructor]. }
  split; [exact Hp | split; [exact Hall|]].
  exact (proj1 (center_hold_idempotent Double32 _ _ Hp Hall)).
Defined.

(* ================================================================== *)
(** ** The pulse width stays in range *)

(** C2. From the moment [ioinit] has run, [OCR1A] holds a value in
    123..246, so never 0, along every run: for all conversions during the
    delay and all switch readings, conversions and preemptions afterwards.
    Every value ever stored is in range: [PWM_INIT], the [PWM_CENTER] of a
    Center edge, and what Manual mode computes from any sample. *)
Theorem pulse_width_always_in_range
        (abi : double_abi) (hw : machine) (convs : list Z)
        (inputs : list input) :
  trace hw = [] ->
  pulse_ok (sfr (run abi inputs (boot convs hw)) OCR1A)
  /\ sfr (run abi inputs (boot convs hw)) OCR1A <> 0
  /\ Forall pulse_ok (stores_to OCR1A (trace (run abi inputs (boot convs hw))))
  /\ pulse_ok PWM_INIT
  /\ pulse_ok PWM_CENTER
  /\ forall s, 0 <= s <= 255 -> pulse_ok (manual_pulse abi s).
Proof.
  intros Hhw.
  assert (Hsafe : safe (run abi inputs (boot convs hw))).
  { apply (run_invariant abi safe);
      auto using service_safe, loop_body_safe, boot_safe. }
  destruct Hsafe as (Hp & _ & Ht).
  split; [exact Hp|].
  split; [unfold pulse_ok, PWM_LOW in Hp; lia|].
  split; [exact Ht|].
  split; [apply pulse_ok_center|].
  split; [apply pulse_ok_center|].
  intros s Hs. apply manual_pulse_ok, Hs.
Qed.

Lemma pulse_width_always_in_range_witness :
  trace power_on = []
  /\ pulse_ok
       (sfr (run Double32
               [LoopIteration 0 no_irqs; AdcComplete 1023;
                LoopIteration 0 no_irqs; LoopIteration 2 no_irqs]
               (boot [512] power_on)) OCR1A).
Proof.
  assert (Hhw : trace power_on = []) by reflexivity.
  split; [exact Hhw|].
  exact (proj1 (pulse_width_always_in_range Double32 power_on [512]
                  [LoopIteration 0 no_irqs; AdcComplete 1023;
                   LoopIteration 0 no_irqs; LoopIteration 2 no_irqs] Hhw)).
Defined.

(* ================================================================== *)
(** ** Startup *)

Ltac split_trace n :=
  match goal with
  | |- precedes _ _ ?tr =>
      exists (firstn n tr), (skipn (S n) tr); cbn;
      split; [reflexivity | split; [intuition discriminate | tauto]]
  end.

Lemma before_sei_interrupts_off (hw : machine) :
  SREG_I (before_sei hw) = false.
Proof. reflexivity. Qed.

Lemma before_sei_irq (hw : machine) (conv : Z) :
  irq conv (before_sei hw) = before_sei hw.
Proof.
  unfold irq, adc_irq_enabled. rewrite before_sei_interrupts_off. reflexivity.
Qed.

Lemma before_sei_timer (hw : machine) :
  sfr (before_sei hw) OCR1A = PWM_CENTER
  /\ sfr (before_sei hw) ICR1 = SERVO_PERIOD
  /\ sfr (before_sei hw) TCCR1A = TIM1_CTRLA
  /\ sfr (before_sei hw) TCCR1B = TIM1_CTRLB.
Proof. vm_compute. auto. Qed.

Lemma boot_order (convs : list Z) (hw : machine) :
  trace hw = [] ->
  precedes (Store OCR1A PWM_CENTER) (Store TCCR1A TIM1_CTRLA)
    (trace (boot convs hw))
  /\ precedes (Store TCCR1A TIM1_CTRLA) (Store TCCR1B TIM1_CTRLB)
       (trace (boot convs hw))
  /\ precedes (Store TCCR1B TIM1_CTRLB) Sei (trace (boot convs hw))
  /\ precedes Sei (DelayMs 2000) (trace (boot convs hw))
  /\ (forall r v, ~ In (Load r v) (trace (boot convs hw)))
  /\ stores_to OCR1A (trace (boot convs hw)) = [PWM_CENTER].
Proof.
  intros Hhw. rewrite boot_trace, Hhw. cbn [app].
  split; [split_trace 6%nat|].
  split; [split_trace 8%nat|].
  split; [split_trace 9%nat|].
  split; [split_trace 19%nat|].
  split; [intros r v; cbn; intuition discriminate|].
  reflexivity.
Qed.

Lemma first_read_after_delay (abi : double_abi) (convs : list Z) (hw : machine)
      (pina : Z) (irqs : point -> list Z) :
  trace hw = [] ->
  precedes (DelayMs 2000) (Load PINA pina)
    (trace (loop_body_preempted abi pina irqs (boot convs hw))).
Proof.
  intros Hhw. rewrite preempted_trace, boot_trace, Hhw. cbn [app].
  split_trace 20%nat.
Qed.

(** C7. Startup order. [ioinit] stores [PWM_CENTER] in [OCR1A] before it
    configures and starts Timer1 ([TCCR1A], [TCCR1B]); all of this happens
    with interrupts off, before [sei()], which comes before the
    [_delay_ms(2000)]; [PINA] is not read before the loop. When [sei()] is
    reached, and after any conversions handled during the delay, [OCR1A]
    holds [PWM_CENTER]. *)
Theorem startup_centers_before_interrupts
        (abi : double_abi) (hw : machine) (convs : list Z) :
  trace hw = [] ->
  SREG_I (before_sei hw) = false
  /\ (forall conv, irq conv (before_sei hw) = before_sei hw)
  /\ sfr (before_sei hw) OCR1A = PWM_CENTER
  /\ sfr (before_sei hw) ICR1 = SERVO_PERIOD
  /\ sfr (before_sei hw) TCCR1A = TIM1_CTRLA
  /\ sfr (before_sei hw) TCCR1B = TIM1_CTRLB
  /\ boot convs hw = _delay_ms 2000 convs (sei (before_sei hw))
  /\ precedes (Store OCR1A PWM_CENTER) (Store TCCR1A TIM1_CTRLA)
       (trace (boot convs hw))
  /\ precedes (Store TCCR1A TIM1_CTRLA) (Store TCCR1B TIM1_CTRLB)
       (trace (boot convs hw))
  /\ precedes (Store TCCR1B TIM1_CTRLB) Sei (trace (boot convs hw))
  /\ precedes Sei (DelayMs 2000) (trace (boot convs hw))
  /\ (forall r v, ~ In (Load r v) (trace (boot convs hw)))
  /\ stores_to OCR1A (trace (boot convs hw)) = [PWM_CENTER]
  /\ (forall n, sfr (boot (firstn n convs) hw) OCR1A = PWM_CENTER)
  /\ sfr (boot convs hw) OCR1A = PWM_CENTER
  /\ forall pina irqs,
      precedes (DelayMs 2000) (Load PINA pina)
        (trace (loop_body_preempted abi pina irqs (boot convs hw))).
Proof.
  intros Hhw.
  destruct (before_sei_timer hw) as (H1 & H2 & H3 & H4).
  destruct (boot_order convs hw Hhw) as (O1 & O2 & O3 & O4 & O5 & O6).
  split; [apply before_sei_interrupts_off|].
  split; [intros conv; apply before_sei_irq|].
  split; [exact H1|]. split; [exact H2|].
  split; [exact H3|]. split; [exact H4|].
  split; [apply boot_split|].
  split; [exact O1|]. split; [exact O2|]. split; [exact O3|].
  split; [exact O4|]. split; [exact O5|]. split; [exact O6|].
  split; [intros n; apply boot_pulse|].
  split; [apply boot_pulse|].
  intros pina irqs. apply first_read_after_delay, Hhw.
Qed.

Lemma startup_centers_before_interrupts_witness :
  trace power_on = []
  /\ precedes (Store OCR1A PWM_CENTER) (Store TCCR1A TIM1_CTRLA)
       (trace (boot [100; 200; 300] power_on)).
Proof.
  assert (Hhw : trace power_on = []) by reflexivity.
  split; [exact Hhw|].
  pose proof (startup_centers_before_interrupts Double32 power_on
                [100; 200; 300] Hhw) as H.
  exact (proj1 (proj2 (proj2 (proj2 (proj2 (proj2 (proj2 (proj2 H)))))))).
Defined.

(* ================================================================== *)
(** ** The conversion-complete handler *)

Lemma ADCH_left_adjusted (conv : Z) :
  ADCH_of ADCSRB_INIT conv = Z.shiftr (conv mod 1024) 2.
Proof.
  unfold ADCH_of, ADC_data.
  change (Z.testbit ADCSRB_INIT ADLAR) with true. cbv iota.
  rewrite Z.shiftr_shiftl_r by lia. reflexivity.
Qed.

Lemma top8_byte (conv : Z) :
  to_uint8 (Z.shiftr (conv mod 1024) 2) = Z.shiftr (conv mod 1024) 2.
Proof.
  unfold to_uint8. apply Z.mod_small.
  rewrite Z.shiftr_div_pow2 by lia. change (2 ^ 2) with 4.
  pose proof (Z.mod_pos_bound conv 1024).
  split; [apply Z.div_pos; lia | apply Z.div_lt_upper_bound; lia].
Qed.

Lemma irq_top8 (conv : Z) (st : machine) :
  adc_running st ->
  analog_readout (irq conv st) = Z.shiftr (conv mod 1024) 2.
Proof.
  intros (Hi & Ha & Hb). unfold irq, adc_irq_enabled.
  rewrite Hi, Ha, Hb. change (Z.testbit ADCSRA_INIT ADIE) with true.
  cbn [andb]. unfold_prog. rewrite ADCH_left_adjusted. apply top8_byte.
Qed.

(** C8. The handler copies the byte [ADCH] into [analog_readout] and
    changes nothing else, however often it runs and wherever it preempts
    the loop body: a preempted iteration is an unpreempted one between
    handler runs. With the configuration of [ioinit], [ADCH] is the top 8
    of the 10 bits of the conversion. *)
Theorem adc_handler_frame
        (abi : double_abi) (adch : Z) (st : machine) :
  analog_readout (ADC_vect adch st) = adch mod 256
  /\ same_but_sample st (ADC_vect adch st)
  /\ (forall conv, same_but_sample st (irq conv st))
  /\ (forall convs, same_but_sample st (service convs st))
  /\ (forall pina irqs, exists before after,
        loop_body_preempted abi pina irqs st
        = service after (loop_body abi pina (service before st)))
  /\ (forall hw convs inputs conv,
        analog_readout (irq conv (run abi inputs (boot convs hw)))
        = Z.shiftr (conv mod 1024) 2
        /\ 0 <= Z.shiftr (conv mod 1024) 2 <= 255
        /\ forall n, 0 <= n ->
             Z.testbit (Z.shiftr (conv mod 1024) 2) n
             = Z.testbit (conv mod 1024) (n + 2)).
Proof.
  split; [reflexivity|].
  split; [repeat split|].
  split; [intros conv; apply irq_frame|].
  split; [intros convs; apply service_frame|].
  split.
  - intros pina irqs.
    destruct (react_serial abi (LoopIteration pina irqs) st)
      as (before & after & E).
    exists before, after. exact E.
  - intros hw convs inputs conv. split; [|split].
    + apply irq_top8.
      apply (run_invariant abi adc_running);
        auto using service_adc_running, loop_body_adc_running,
                   boot_adc_running.
    + pose proof (top8_byte conv) as Hb. unfold to_uint8 in Hb.
      pose proof (Z.mod_pos_bound (Z.shiftr (conv mod 1024) 2) 256).
      lia.
    + intros n Hn. apply Z.shiftr_spec, Hn.
Qed.

(* ================================================================== *)
(** ** A run, worked out *)

(** After power-on a conversion of 512 completes during the delay. The
    switch then reads Manual (pulse for sample 128), the potentiometer is
    turned to full scale and the switch reads Manual again (pulse for
    sample 255), then Center twice: one store of [PWM_CENTER], none for the
    second Center iteration. *)
Example bench_session :
  stores_to OCR1A
    (trace (run Double32
              [LoopIteration 0 no_irqs; AdcComplete 1023;
               LoopIteration 0 no_irqs; LoopIteration 2 no_irqs;
               LoopIteration 2 no_irqs]
              (boot [512] power_on)))
  = [184; 184; 246; 184].
Proof. vm_compute. reflexivity. Qed.

(** A conversion that completes between line 190 and line 197 is the one
    line 197 reads. *)
Example preempted_sample :
  sfr (loop_body_preempted Double64 0
         (fun p => match p with L197 => [340] | _ => [] end)
         (boot [512] power_on)) OCR1A
  = spec_pulse 85.
Proof. vm_compute. reflexivity. Qed.

(* ================================================================== *)
(** ** Startup under conversions *)

Lemma run_statements_app (a b : list prog) (st : machine) :
  run_statements (a ++ b) st = run_statements b (run_statements a st).
Proof. unfold run_statements. apply fold_left_app. Qed.

Lemma startup_statements_before_sei (hw : machine) :
  run_statements startup_statements hw = before_sei hw.
Proof. reflexivity. Qed.

Lemma service_off (convs : list Z) (st : machine) :
  SREG_I st = false -> service convs st = st.
Proof.
  intros Hoff. rewrite service_last. destruct convs; [reflexivity|].
  unfold adc_irq_enabled. rewrite Hoff. reflexivity.
Qed.

Lemma run_preempted_off (irqs : nat -> list Z) (ps : list prog) :
  Forall keeps_interrupts_off ps ->
  forall k st, SREG_I st = false ->
  run_preempted irqs k ps st = run_statements ps st.
Proof.
  induction 1 as [|p ps Hp _ IH]; intros k st Hoff; [reflexivity|].
  cbn [run_preempted]. rewrite service_off by exact Hoff.
  rewrite IH by (apply Hp, Hoff). reflexivity.
Qed.

Lemma startup_keeps_interrupts_off :
  Forall keeps_interrupts_off (tl startup_statements).
Proof.
  unfold startup_statements, tl.
  repeat (constructor; [intros st Hoff; exact Hoff|]). constructor.
Qed.

(** Whatever the handler stored before [cli], the initialisation of
    [analog_readout] overwrites it. *)
Lemma reset_forgets_sample (v : Z) (hw : machine) :
  run_statements (tl startup_statements) (cli (ADC_vect v hw))
  = run_statements (tl startup_statements) (cli hw).
Proof.
  change (tl startup_statements)
    with ([store MCUSR 0; wdt_disable; set_analog_readout 0]
          ++ skipn 4 startup_statements).
  rewrite !run_statements_app. f_equal.
Qed.

(** X1. From any state of the chip at reset, also one with interrupts
    enabled and the converter running, and whenever conversions complete
    between the statements of [reset()], of [main()]'s prologue and of
    [ioinit()], [sei()] is reached in the same state as without any
    conversion: [analog_readout] is 0 and no handler run has left a
    mark. *)
Theorem startup_immune_to_conversions (irqs : nat -> list Z) (hw : machine) :
  run_preempted irqs 0 startup_statements hw = before_sei hw
  /\ analog_readout (run_preempted irqs 0 startup_statements hw) = 0
  /\ SREG_I (run_preempted irqs 0 startup_statements hw) = false.
Proof.
  assert (E : run_preempted irqs 0 startup_statements hw = before_sei hw).
  { change (run_preempted irqs 0 startup_statements hw)
      with (run_preempted irqs 1 (tl startup_statements)
              (cli (service (irqs 0%nat) hw))).
    rewrite run_preempted_off
      by (apply startup_keeps_interrupts_off || reflexivity).
    rewrite <- startup_statements_before_sei.
    rewrite service_last. destruct (irqs 0%nat) as [|c cs]; [reflexivity|].
    destruct (adc_irq_enabled hw); [|reflexivity].
    apply reset_forgets_sample. }
  rewrite E. split; [reflexivity | split; reflexivity].
Qed.

(* ================================================================== *)
(** ** [ioinit] *)

(** X2. [ioinit] leaves every register it writes with a value that does
    not depend on the state it starts in, so running it a second time
    changes no register; it leaves alone the registers it does not write
    ([MCUSR] and the inputs [ADCH], [PINA]), the interrupt flag and the
    program's variables. *)
Theorem ioinit_idempotent (st st' : machine) (r : reg) :
  sfr (ioinit (ioinit st)) r = sfr (ioinit st) r
  /\ (r <> MCUSR -> r <> ADCH -> r <> PINA ->
      sfr (ioinit st) r = sfr (ioinit st') r)
  /\ (r = MCUSR \/ r = ADCH \/ r = PINA -> sfr (ioinit st) r = sfr st r)
  /\ SREG_I (ioinit st) = SREG_I st
  /\ analog_readout (ioinit st) = analog_readout st
  /\ center_manual_sw (ioinit st) = center_manual_sw st
  /\ prev_sw_state (ioinit st) = prev_sw_state st.
Proof.
  split; [destruct r; vm_compute; reflexivity|].
  split.
  { intros H1 H2 H3. destruct r; try contradiction; vm_compute; reflexivity. }
  split.
  { intros [-> | [-> | ->]]; vm_compute; reflexivity. }
  split; [reflexivity|]. split; [reflexivity|]. split; reflexivity.
Qed.

(* ================================================================== *)
(** ** What the loop does to the chip *)

Lemma react_frame (abi : double_abi) (i : input) (st : machine) :
  SREG_I (react abi i st) = SREG_I st
  /\ forall r, r <> OCR1A -> sfr (react abi i st) r = sfr st r.
Proof.
  destruct (react_serial abi i st) as (before & after & E). rewrite E.
  destruct i as [conv | pina irqs].
  - destruct (service_frame after st) as (-> & -> & _). auto.
  - destruct (service_frame after (loop_body abi pina (service before st)))
      as (-> & -> & _).
    destruct (loop_body_frame abi pina (service before st)) as (_ & -> & Hl).
    destruct (service_frame before st) as (Hs & -> & _).
    split; [reflexivity|]. intros r Hr. rewrite Hl, Hs by exact Hr.
    reflexivity.
Qed.

Lemma react_trace (abi : double_abi) (i : input) (st : machine) :
  exists tr,
    trace (react abi i st) = trace st ++ tr
    /\ Forall loop_io tr
    /\ length (loads_of PINA tr) = iterations [i]
    /\ (length (stores_to OCR1A tr) <= iterations [i])%nat.
Proof.
  destruct i as [conv | pina irqs]; cbn [react].
  - exists []. destruct (irq_frame conv st) as (_ & _ & _ & _ & _ & ->).
    rewrite app_nil_r. cbn. auto.
  - rewrite preempted_trace. eexists. split; [reflexivity|].
    destruct (Z.testbit pina 1); [destruct (prev_sw_state st =? SET_CENTER)|];
      cbn; repeat constructor.
Qed.

Lemma loads_of_app (r : reg) (a b : list event) :
  loads_of r (a ++ b) = loads_of r a ++ loads_of r b.
Proof. unfold loads_of. apply flat_map_app. Qed.

Lemma iterations_cons (i : input) (inputs : list input) :
  iterations (i :: inputs) = (iterations [i] + iterations inputs)%nat.
Proof. unfold iterations. cbn. destruct i; reflexivity. Qed.


(** X4. Along any run the switch is polled exactly once per loop iteration
    and [OCR1A] is written at most once per iteration; a handler run does
    neither. *)
Theorem loop_polls_once_per_iteration
        (abi : double_abi) (inputs : list input) (st : machine) :
  length (loads_of PINA (trace (run abi inputs st)))
  = (length (loads_of PINA (trace st)) + iterations inputs)%nat
  /\ (length (stores_to OCR1A (trace (run abi inputs st)))
      <= length (stores_to OCR1A (trace st)) + iterations inputs)%nat.
Proof.
  revert st. induction inputs as [|i inputs IH]; intros st.
  - change (run abi [] st) with st. cbn. lia.
  - rewrite run_cons, iterations_cons.
    destruct (IH (react abi i st)) as (Hl & Hs).
    destruct (react_trace abi i st) as (tr & Ht & _ & Hl' & Hs').
    rewrite Ht, loads_of_app, stores_to_app, !length_app in *. lia.
Qed.

Lemma react_sample_range (abi : double_abi) (i : input) (st : machine) :
  0 <= analog_readout st <= 255 ->
  0 <= analog_readout (react abi i st) <= 255.
Proof.
  intros Hs. destruct (react_serial abi i st) as (before & after & E).
  rewrite E. destruct i as [conv | pina irqs].
  - apply service_sample_range, Hs.
  - apply service_sample_range.
    destruct (loop_body_frame abi pina (service before st)) as (-> & _).
    apply service_sample_range, Hs.
Qed.

Lemma boot_sample_range (convs : list Z) (hw : machine) :
  0 <= analog_readout (boot convs hw) <= 255.
Proof.
  rewrite boot_split. unfold _delay_ms, seqp. apply service_sample_range.
  change (analog_readout (emit (DelayMs 2000) (sei (before_sei hw))))
    with (to_uint8 0).
  unfold to_uint8. rewrite Z.mod_0_l; lia.
Qed.

Lemma run_sample_range (abi : double_abi) (inputs : list input)
      (st : machine) :
  0 <= analog_readout st <= 255 ->
  0 <= analog_readout (run abi inputs st) <= 255.
Proof.
  revert st. induction inputs as [|i inputs IH]; intros st Hs; [exact Hs|].
  rewrite run_cons. apply IH, react_sample_range, Hs.
Qed.

Lemma run_pulse_ok (abi : double_abi) (inputs : list input) (st : machine) :
  pulse_ok (sfr st OCR1A) -> 0 <= analog_readout st <= 255 ->
  pulse_ok (sfr (run abi inputs st) OCR1A).
Proof.
  revert st. induction inputs as [|i inputs IH]; intros st Hp Hs; [exact Hp|].
  rewrite run_cons. apply IH; [|apply react_sample_range, Hs].
  destruct i as [conv | pina irqs]; cbn [react].
  - destruct (irq_frame conv st) as (-> & _). exact Hp.
  - rewrite preempted_pulse.
    destruct (Z.testbit pina 1); [destruct (prev_sw_state st =? SET_CENTER)|].
    + exact Hp.
    + apply pulse_ok_center.
    + apply manual_pulse_ok, at_line_197_sample_range, Hs.
Qed.

Lemma run_keeps_register (abi : double_abi) (r : reg) (inputs : list input)
      (st : machine) :
  r <> OCR1A -> sfr (run abi inputs st) r = sfr st r.
Proof.
  intros Hr. revert st. induction inputs as [|i inputs IH]; intros st;
    [reflexivity|].
  rewrite run_cons, IH. apply react_frame, Hr.
Qed.

Lemma boot_registers (convs : list Z) (hw : machine) :
  sfr (boot convs hw) ICR1 = SERVO_PERIOD
  /\ sfr (boot convs hw) TCCR1A = TIM1_CTRLA
  /\ sfr (boot convs hw) TCCR1B = TIM1_CTRLB
  /\ sfr (boot convs hw) DDRA = PA_DDR_INIT
  /\ sfr (boot convs hw) PORTA = PA_PUP_INIT.
Proof.
  destruct (boot_frame convs hw) as (-> & _). vm_compute. auto.
Qed.

(** X5. Once booted the chip stays as [ioinit] configured it, along every
    run: Timer1 keeps its period and control values and the compare value
    stays strictly between 0 and the period, so each pulse ends inside its
    frame; [PA6] ([OC1A]) stays the only output pin of port A and [PA1]
    (the switch) the only pin with its pull-up on. *)
Theorem pins_and_timer_stay_configured
        (abi : double_abi) (hw : machine) (convs : list Z)
        (inputs : list input) :
  sfr (run abi inputs (boot convs hw)) ICR1 = SERVO_PERIOD
  /\ sfr (run abi inputs (boot convs hw)) TCCR1A = TIM1_CTRLA
  /\ sfr (run abi inputs (boot convs hw)) TCCR1B = TIM1_CTRLB
  /\ 0 < sfr (run abi inputs (boot convs hw)) OCR1A
       < sfr (run abi inputs (boot convs hw)) ICR1
  /\ (forall n, 0 <= n ->
        Z.testbit (sfr (run abi inputs (boot convs hw)) DDRA) n = (n =? 6))
  /\ (forall n, 0 <= n ->
        Z.testbit (sfr (run abi inputs (boot convs hw)) PORTA) n = (n =? 1)).
Proof.
  destruct (boot_registers convs hw) as (H1 & H2 & H3 & H4 & H5).
  assert (Hp : pulse_ok (sfr (run abi inputs (boot convs hw)) OCR1A)).
  { apply run_pulse_ok; [|apply boot_sample_range].
    rewrite boot_pulse. apply pulse_ok_center. }
  rewrite (run_keeps_register abi ICR1), (run_keeps_register abi TCCR1A),
    (run_keeps_register abi TCCR1B), (run_keeps_register abi DDRA),
    (run_keeps_register abi PORTA) by discriminate.
  split; [exact H1|]. split; [exact H2|]. split; [exact H3|].
  split.
  { rewrite H1. unfold pulse_ok, PWM_LOW, PWM_HIGH in Hp.
    unfold SERVO_PERIOD. lia. }
  split; intros n Hn.
  - rewrite H4. change PA_DDR_INIT with (2 ^ 6).
    rewrite Z.pow2_bits_eqb by lia. apply Z.eqb_sym.
  - rewrite H5. change PA_PUP_INIT with (2 ^ 1).
    rewrite Z.pow2_bits_eqb by lia. apply Z.eqb_sym.
Qed.

Lemma run_centered (abi : double_abi) (hw : machine) (convs : list Z)
      (inputs : list input) :
  centered (run abi inputs (boot convs hw)).
Proof.
  apply (run_invariant abi centered);
    auto using service_centered, loop_body_centered, boot_centered.
Qed.

(** X6. In every state the program can reach, an iteration leaves in
    [OCR1A] what a level-triggered controller would: [PWM_CENTER] when the
    switch reads Center, the pulse for the current sample when it reads
    Manual. Skipping the store while the switch stays at Center is never
    visible in the register. *)
Theorem edge_trigger_equals_level_trigger
        (abi : double_abi) (hw : machine) (convs : list Z)
        (inputs : list input) (pina : Z) (irqs : point -> list Z) :
  sfr (loop_body_preempted abi pina irqs (run abi inputs (boot convs hw)))
      OCR1A
  = if Z.testbit pina 1
    then PWM_CENTER
    else spec_pulse
           (analog_readout
              (at_line_197 pina irqs (run abi inputs (boot convs hw)))).
Proof.
  rewrite preempted_pulse.
  destruct (Z.testbit pina 1).
  - destruct (Z.eqb_spec (prev_sw_state (run abi inputs (boot convs hw)))
                SET_CENTER) as [E|_]; [|reflexivity].
    apply run_centered, E.
  - apply manual_pulse_exact, at_line_197_sample_range, run_sample_range,
      boot_sample_range.
Qed.

(* ================================================================== *)
(** ** The sample the loop sees *)

Lemma last_app_cons {A : Type} (l : list A) (a : A) (l' : list A) (d : A) :
  last (l ++ a :: l') d = last (a :: l') d.
Proof.
  induction l as [|x l IH]; [reflexivity|].
  cbn [app]. rewrite <- IH. cbn [last].
  destruct (l ++ a :: l') eqn:E; [|reflexivity].
  destruct l; discriminate.
Qed.

Lemma service_sample (convs : list Z) (st : machine) :
  adc_running st ->
  analog_readout (service convs st) = latest_sample convs st.
Proof.
  intros (Hi & Ha & Hb). rewrite service_last.
  destruct convs as [|c cs]; [reflexivity|].
  unfold adc_irq_enabled. rewrite Hi, Ha, Hb.
  change (Z.testbit ADCSRA_INIT ADIE) with true. cbn [andb].
  unfold ADC_vect, set_analog_readout. cbn [analog_readout latest_sample].
  rewrite ADCH_left_adjusted. apply top8_byte.
Qed.

Lemma latest_sample_app (a b : list Z) (st st' : machine) :
  analog_readout st' = latest_sample a st ->
  latest_sample b st' = latest_sample (a ++ b) st.
Proof.
  intros E. destruct b as [|c cs].
  - rewrite app_nil_r. exact E.
  - unfold latest_sample at 2. rewrite last_app_cons.
    destruct a; reflexivity.
Qed.

Lemma run_adc_running (abi : double_abi) (hw : machine) (convs : list Z)
      (inputs : list input) :
  adc_running (run abi inputs (boot convs hw)).
Proof.
  apply (run_invariant abi adc_running);
    auto using service_adc_running, loop_body_adc_running, boot_adc_running.
Qed.

Lemma top8_div (conv : Z) : top8 conv = conv mod 1024 / 4.
Proof. unfold top8. rewrite Z.shiftr_div_pow2 by lia. reflexivity. Qed.

(** X7. [analog_readout] is a one-slot mailbox. In a Manual iteration of
    the running program the pulse written is the one for the top 8 bits of
    the last conversion that completed before line 197 (for the sample
    already there if none did); conversions completing later in the
    iteration do not change that pulse, and the last of them is the sample
    the next iteration finds. *)
Theorem latest_conversion_wins
        (abi : double_abi) (hw : machine) (convs : list Z)
        (inputs : list input) (pina : Z) (irqs : point -> list Z) :
  manual_reading pina ->
  sfr (loop_body_preempted abi pina irqs (run abi inputs (boot convs hw)))
      OCR1A
  = spec_pulse (latest_sample (irqs L188 ++ irqs L190 ++ irqs L197)
                  (run abi inputs (boot convs hw)))
  /\ analog_readout
       (loop_body_preempted abi pina irqs (run abi inputs (boot convs hw)))
     = latest_sample
         ((irqs L188 ++ irqs L190 ++ irqs L197)
          ++ irqs L198 ++ irqs L199 ++ irqs L200 ++ irqs L203)
         (run abi inputs (boot convs hw))
  /\ forall conv,
      spec_pulse (top8 conv) = PWM_LOW + conv mod 1024 / 4 * 123 / 255.
Proof.
  intros Hm.
  pose proof (run_adc_running abi hw convs inputs) as Hrun.
  pose proof (run_sample_range abi inputs _ (boot_sample_range convs hw))
    as Hs.
  set (st := run abi inputs (boot convs hw)) in *.
  assert (Hbefore : analog_readout
                      (service (irqs L188 ++ irqs L190 ++ irqs L197) st)
                    = latest_sample (irqs L188 ++ irqs L190 ++ irqs L197) st)
    by (apply service_sample, Hrun).
  split; [|split].
  - rewrite preempted_pulse, Hm, at_line_197_serial.
    change (analog_readout (read_switch pina ?x)) with (analog_readout x).
    rewrite <- Hbefore. apply manual_pulse_exact.
    apply service_sample_range, Hs.
  - rewrite preempted_manual by exact Hm.
    rewrite service_sample
      by (apply loop_body_adc_running, service_adc_running, Hrun).
    apply latest_sample_app.
    destruct (loop_body_frame abi pina
                (service (irqs L188 ++ irqs L190 ++ irqs L197) st))
      as (-> & _).
    exact Hbefore.
  - intros conv. rewrite spec_pulse_div, top8_div. reflexivity.
Qed.

Lemma latest_conversion_wins_witness :
  manual_reading 0
  /\ sfr (loop_body_preempted Double32 0
            (fun p => match p with
                      | L188 => [100; 200]
                      | L197 => [1023]
                      | L199 => [0]
                      | _ => []
                      end)
            (run Double32 [LoopIteration 2 no_irqs] (boot [512] power_on)))
         OCR1A
     = PWM_HIGH.
Proof.
  assert (Hm : manual_reading 0) by reflexivity.
  split; [exact Hm|].
  exact (proj1 (latest_conversion_wins Double32 power_on [512]
                  [LoopIteration 2 no_irqs] 0
                  (fun p => match p with
                            | L188 => [100; 200]
                            | L197 => [1023]
                            | L199 => [0]
                            | _ => []
                            end) Hm)).
Defined.

(* ================================================================== *)
(** ** The width of [double] *)

Lemma agree_refl (st : machine) : agree_but_temp st st.
Proof. unfold agree_but_temp. auto 7. Qed.

Lemma service_agree (convs : list Z) (a b : machine) :
  agree_but_temp a b -> agree_but_temp (service convs a) (service convs b).
Proof.
  intros (Hr & Hi & Ha & Hc & Hp & Ht). rewrite !service_last.
  destruct convs as [|c cs]; [unfold agree_but_temp; auto 7|].
  unfold adc_irq_enabled. rewrite Hi, (Hr ADCSRA), (Hr ADCSRB).
  destruct (SREG_I b && Z.testbit (sfr b ADCSRA) ADIE);
    unfold agree_but_temp, ADC_vect, set_analog_readout;
    cbn [sfr SREG_I analog_readout center_manual_sw prev_sw_state trace];
    auto 7.
Qed.

Lemma loop_body_agree (abi1 abi2 : double_abi) (pina : Z) (a b : machine) :
  agree_but_temp a b -> 0 <= analog_readout a <= 255 ->
  agree_but_temp (loop_body abi1 pina a) (loop_body abi2 pina b).
Proof.
  intros (Hr & Hi & Ha & Hc & Hp & Ht) Hs.
  assert (Hm : manual_pulse abi1 (analog_readout a)
               = manual_pulse abi2 (analog_readout b)).
  { rewrite <- Ha, !manual_pulse_exact by exact Hs. reflexivity. }
  destruct (loop_body_frame abi1 pina a) as (Fa1 & Fi1 & Fr1).
  destruct (loop_body_frame abi2 pina b) as (Fa2 & Fi2 & Fr2).
  destruct (loop_body_modes abi1 pina a) as (Fc1 & Fp1).
  destruct (loop_body_modes abi2 pina b) as (Fc2 & Fp2).
  unfold agree_but_temp.
  split.
  { intros r. destruct (reg_eq_dec r OCR1A) as [->|Hne].
    - rewrite !loop_body_pulse, Hp, (Hr OCR1A), Hm. reflexivity.
    - rewrite Fr1, Fr2 by exact Hne. apply Hr. }
  split; [congruence|]. split; [congruence|].
  split; [congruence|]. split; [congruence|].
  rewrite !loop_body_trace, Ht, Hp, Hm. reflexivity.
Qed.

Lemma react_agree (abi1 abi2 : double_abi) (i : input) (a b : machine) :
  agree_but_temp a b -> 0 <= analog_readout a <= 255 ->
  agree_but_temp (react abi1 i a) (react abi2 i b).
Proof.
  intros Hab Hs. destruct i as [conv | pina irqs]; cbn [react].
  - apply (service_agree [conv]), Hab.
  - assert (Hp : prev_sw_state a = prev_sw_state b) by apply Hab.
    destruct (Z.testbit pina 1) eqn:Hb.
    + destruct (Z.eqb_spec (prev_sw_state a) SET_CENTER) as [E|E].
      * rewrite !preempted_hold by congruence.
        apply service_agree, loop_body_agree;
          [apply service_agree, Hab | apply service_sample_range, Hs].
      * rewrite !preempted_edge by congruence.
        apply service_agree, loop_body_agree;
          [apply service_agree, Hab | apply service_sample_range, Hs].
    + rewrite !preempted_manual by exact Hb.
      apply service_agree, loop_body_agree;
        [apply service_agree, Hab | apply service_sample_range, Hs].
Qed.

Lemma run_agree (abi1 abi2 : double_abi) (inputs : list input)
      (a b : machine) :
  agree_but_temp a b -> 0 <= analog_readout a <= 255 ->
  agree_but_temp (run abi1 inputs a) (run abi2 inputs b).
Proof.
  revert a b. induction inputs as [|i inputs IH]; intros a b Hab Hs;
    [exact Hab|].
  rewrite !run_cons.
  apply IH; [apply react_agree; assumption | apply react_sample_range, Hs].
Qed.

(** X8. Whether the compiler makes [double] 32 or 64 bits wide changes
    nothing a run can show: the same inputs give the same registers, the
    same variables and the same I/O trace; only the scratch value [temp]
    may differ between the two. *)
Theorem double_width_irrelevant
        (abi1 abi2 : double_abi) (hw : machine) (convs : list Z)
        (inputs : list input) :
  agree_but_temp (run abi1 inputs (boot convs hw))
                 (run abi2 inputs (boot convs hw))
  /\ trace (run abi1 inputs (boot convs hw))
     = trace (run abi2 inputs (boot convs hw))
  /\ sfr (run abi1 inputs (boot convs hw)) OCR1A
     = sfr (run abi2 inputs (boot convs hw)) OCR1A.
Proof.
  assert (H : agree_but_temp (run abi1 inputs (boot convs hw))
                             (run abi2 inputs (boot convs hw))).
  { apply run_agree; [apply agree_refl | apply boot_sample_range]. }
  split; [exact H|]. split; apply H.
Qed.

(** The scratch value does differ: for the sample 156 the float left in
    [temp] is one unit in the last place apart between the two widths. *)
Example temp_depends_on_double_width :
  manual_temp Double32 156 <> manual_temp Double64 156
  /\ Ztrunc (manual_temp Double32 156) = Ztrunc (manual_temp Double64 156).
Proof. split; [vm_compute; discriminate | vm_compute; reflexivity]. Qed.

(* ================================================================== *)
(** ** The switch variables *)





(* ================================================================== *)
(** ** From potentiometer to pulse width *)

Lemma spec_pulse_mono (s1 s2 : Z) :
  0 <= s1 -> s1 <= s2 ->
  spec_pulse s1 <= spec_pulse s2 <= spec_pulse s1 + (s2 - s1).
Proof.
  intros H0 H12. rewrite !spec_pulse_div.
  assert (Hlo : s1 * 123 / 255 <= s2 * 123 / 255)
    by (apply Z.div_le_mono; lia).
  assert (Hhi : s2 * 123 / 255 <= (s1 * 123 + (s2 - s1) * 255) / 255)
    by (apply Z.div_le_mono; lia).
  rewrite Z.div_add in Hhi by lia. lia.
Qed.

(** X10. Manual mode follows the potentiometer: of two samples in 0..255
    the larger never gives the shorter pulse, and the pulse widths differ
    by no more than the samples do, so one step of the sample moves
    [OCR1A] by at most one tick. *)
Theorem pulse_follows_potentiometer
        (abi : double_abi) (pina : Z) (st1 st2 : machine) :
  manual_reading pina ->
  0 <= analog_readout st1 ->
  analog_readout st1 <= analog_readout st2 ->
  analog_readout st2 <= 255 ->
  sfr (loop_body abi pina st1) OCR1A <= sfr (loop_body abi pina st2) OCR1A
  /\ sfr (loop_body abi pina st2) OCR1A - sfr (loop_body abi pina st1) OCR1A
     <= analog_readout st2 - analog_readout st1.
Proof.
  intros Hm H0 H12 H255.
  rewrite !loop_body_pulse, Hm, !manual_pulse_wrap.
  rewrite !manual_pulse_exact by lia.
  pose proof (spec_pulse_mono _ _ H0 H12). lia.
Qed.

Lemma pulse_follows_potentiometer_witness :
  manual_reading 0
  /\ 0 <= analog_readout (boot [400] power_on)
  /\ analog_readout (boot [400] power_on) <= analog_readout (boot [404] power_on)
  /\ analog_readout (boot [404] power_on) <= 255
  /\ sfr (loop_body Double32 0 (boot [400] power_on)) OCR1A
     <= sfr (loop_body Double32 0 (boot [404] power_on)) OCR1A.
Proof.
  assert (Hm : manual_reading 0) by reflexivity.
  assert (H0 : 0 <= analog_readout (boot [400] power_on))
    by (vm_compute; discriminate).
  assert (H12 : analog_readout (boot [400] power_on)
                <= analog_readout (boot [404] power_on))
    by (vm_compute; discriminate).
  assert (H255 : analog_readout (boot [404] power_on) <= 255)
    by (vm_compute; discriminate).
  split; [exact Hm|]. split; [exact H0|]. split; [exact H12|].
  split; [exact H255|].
  exact (proj1 (pulse_follows_potentiometer Double32 0 (boot [400] power_on)
                  (boot [404] power_on) Hm H0 H12 H255)).
Defined.

Lemma pulses_complete (v : Z) : PWM_LOW <= v <= PWM_HIGH -> In v pulses.
Proof.
  unfold PWM_LOW, PWM_HIGH. intros Hv. unfold pulses.
  replace v with (PWM_LOW + Z.of_nat (Z.to_nat (v - 123)))
    by (unfold PWM_LOW; lia).
  apply (in_map (fun n => PWM_LOW + Z.of_nat n)), in_seq. lia.
Qed.

Lemma for_all_pulses (P : Z -> bool) :
  forallb P pulses = true ->
  forall v, PWM_LOW <= v <= PWM_HIGH -> P v = true.
Proof.
  intros Hall v Hv.
  rewrite forallb_forall in Hall. apply Hall, pulses_complete, Hv.
Qed.

(** X11. Every pulse width of the servo's range can be set: for each tick
    count from [PWM_LOW] to [PWM_HIGH] there is a sample in 0..255 for which
    a Manual iteration stores exactly that count in [OCR1A]. *)
Theorem every_pulse_width_reachable
        (abi : double_abi) (pina : Z) (v : Z) :
  manual_reading pina ->
  PWM_LOW <= v <= PWM_HIGH ->
  exists s,
    0 <= s <= 255
    /\ forall st, analog_readout st = s ->
                  sfr (loop_body abi pina st) OCR1A = v.
Proof.
  intros Hm Hv.
  assert (H : (0 <=? ((v - 123) * 255 + 122) / 123)
              && (((v - 123) * 255 + 122) / 123 <=? 255)
              && (manual_pulse abi (((v - 123) * 255 + 122) / 123) =? v)
              = true).
  { revert v Hv. apply for_all_pulses.
    destruct abi; vm_compute; reflexivity. }
  apply andb_true_iff in H. destruct H as (H & Hval).
  apply andb_true_iff in H. destruct H as (Hlo & Hhi).
  exists (((v - 123) * 255 + 122) / 123).
  split; [lia|].
  intros st Hst. rewrite loop_body_pulse, Hm, manual_pulse_wrap, Hst.
  apply Z.eqb_eq, Hval.
Qed.

Lemma every_pulse_width_reachable_witness :
  manual_reading 0
  /\ PWM_LOW <= 200 <= PWM_HIGH
  /\ exists s,
      0 <= s <= 255
      /\ forall st, analog_readout st = s ->
                    sfr (loop_body Double64 0 st) OCR1A = 200.
Proof.
  assert (Hm : manual_reading 0) by reflexivity.
  assert (Hv : PWM_LOW <= 200 <= PWM_HIGH) by (split; discriminate).
  split; [exact Hm|]. split; [exact Hv|].
  exact (every_pulse_width_reachable Double64 0 200 Hm Hv).
Defined.

(* ================================================================== *)
(** ** [reset] and the order of startup *)

(** X12. [reset()] comes first: [cli] is the first thing the program does
    and the watchdog is disabled before [ioinit] stores anything, before
    [sei()] and before the two-second delay. In [ioinit] the two stores
    that change the clock prescaler follow each other directly, and they
    are done before Timer1 is touched. *)
Theorem reset_runs_first (hw : machine) (convs : list Z) :
  trace hw = [] ->
  (exists rest, trace (boot convs hw) = Cli :: rest)
  /\ precedes WdtDisable (Store CLKPR 0x80) (trace (boot convs hw))
  /\ precedes WdtDisable Sei (trace (boot convs hw))
  /\ precedes WdtDisable (DelayMs 2000) (trace (boot convs hw))
  /\ (exists a b,
        trace (boot convs hw)
        = a ++ Store CLKPR 0x80 :: Store CLKPR 0x00 :: b
        /\ (forall r v, In (Store r v) a -> r = MCUSR)
        /\ ~ In Sei a)
  /\ sfr (boot convs hw) MCUSR = 0
  /\ sfr (boot convs hw) CLKPR = 0.
Proof.
  intros Hhw.
  assert (Hreg : sfr (boot convs hw) MCUSR = 0
                 /\ sfr (boot convs hw) CLKPR = 0).
  { destruct (boot_frame convs hw) as (-> & _). vm_compute. auto. }
  rewrite boot_trace, Hhw. cbn [app].
  split; [eexists; reflexivity|].
  split; [split_trace 2%nat|].
  split; [split_trace 2%nat|].
  split; [split_trace 2%nat|].
  split; [|exact Hreg].
  exists [Cli; Store MCUSR 0; WdtDisable]. eexists.
  split; [reflexivity|]. split.
  - intros r v [H | [H | [H | []]]]; try discriminate.
    injection H as <- _. reflexivity.
  - cbn. intuition discriminate.
Qed.

Lemma reset_runs_first_witness :
  trace power_on = []
  /\ precedes WdtDisable (DelayMs 2000) (trace (boot [7; 8] power_on)).
Proof.
  assert (Hhw : trace power_on = []) by reflexivity.
  split; [exact Hhw|].
  exact (proj1 (proj2 (proj2 (proj2 (reset_runs_first power_on [7; 8] Hhw))))).
Defined.

(* ================================================================== *)
(** ** The other pins of port A *)

Lemma loop_body_sample_agree (abi : double_abi) (pina1 pina2 : Z)
      (st : machine) (convs : list Z) :
  analog_readout (service convs (loop_body abi pina1 st))
  = analog_readout (service convs (loop_body abi pina2 st)).
Proof.
  rewrite !service_last. destruct convs as [|c cs].
  - destruct (loop_body_frame abi pina1 st) as (-> & _).
    destruct (loop_body_frame abi pina2 st) as (-> & _). reflexivity.
  - destruct (loop_body_frame abi pina1 st) as (Ha1 & Hi1 & Hr1).
    destruct (loop_body_frame abi pina2 st) as (Ha2 & Hi2 & Hr2).
    unfold adc_irq_enabled.
    rewrite Hi1, Hi2, (Hr1 ADCSRA), (Hr2 ADCSRA), (Hr1 ADCSRB), (Hr2 ADCSRB)
      by discriminate.
    destruct (SREG_I st && Z.testbit (sfr st ADCSRA) ADIE);
      [reflexivity | congruence].
Qed.

(** X13. Of the byte read from [PINA] only bit 1, the switch, counts: two
    readings that agree on that bit, whatever the other pins of port A
    show, lead an iteration to the same registers, the same variables and
    the same sample. *)
Theorem only_the_switch_pin_counts
        (abi : double_abi) (pina1 pina2 : Z) (irqs : point -> list Z)
        (st : machine) :
  Z.testbit pina1 1 = Z.testbit pina2 1 ->
  (forall r, sfr (loop_body_preempted abi pina1 irqs st) r
             = sfr (loop_body_preempted abi pina2 irqs st) r)
  /\ center_manual_sw (loop_body_preempted abi pina1 irqs st)
     = center_manual_sw (loop_body_preempted abi pina2 irqs st)
  /\ prev_sw_state (loop_body_preempted abi pina1 irqs st)
     = prev_sw_state (loop_body_preempted abi pina2 irqs st)
  /\ analog_readout (loop_body_preempted abi pina1 irqs st)
     = analog_readout (loop_body_preempted abi pina2 irqs st)
  /\ stores_to OCR1A (trace (loop_body_preempted abi pina1 irqs st))
     = stores_to OCR1A (trace (loop_body_preempted abi pina2 irqs st)).
Proof.
  intros Hbit.
  assert (Hs : analog_readout (at_line_197 pina1 irqs st)
               = analog_readout (at_line_197 pina2 irqs st)).
  { rewrite !at_line_197_serial. reflexivity. }
  destruct (preempted_modes abi pina1 irqs st) as (Hc1 & Hp1).
  destruct (preempted_modes abi pina2 irqs st) as (Hc2 & Hp2).
  split.
  { intros r. destruct (reg_eq_dec r OCR1A) as [->|Hne].
    - rewrite !preempted_pulse, Hbit, Hs. reflexivity.
    - destruct (react_frame abi (LoopIteration pina1 irqs) st) as (_ & H1).
      destruct (react_frame abi (LoopIteration pina2 irqs) st) as (_ & H2).
      cbn [react] in H1, H2. rewrite H1, H2 by exact Hne. reflexivity. }
  split; [rewrite Hc1, Hc2, Hbit; reflexivity|].
  split; [rewrite Hp1, Hp2, Hbit; reflexivity|].
  split.
  { destruct (Z.testbit pina2 1) eqn:Hb2.
    - destruct (Z.eqb_spec (prev_sw_state st) SET_CENTER) as [E|E].
      + rewrite !preempted_hold by assumption.
        apply loop_body_sample_agree.
      + rewrite !preempted_edge by assumption.
        apply loop_body_sample_agree.
    - rewrite !preempted_manual by assumption.
      apply loop_body_sample_agree. }
  rewrite !preempted_trace, !stores_to_app, Hbit, Hs. reflexivity.
Qed.

Lemma only_the_switch_pin_counts_witness :
  Z.testbit 0x02 1 = Z.testbit 0x43 1
  /\ sfr (loop_body_preempted Double32 0x02 no_irqs (boot [] power_on)) OCR1A
     = sfr (loop_body_preempted Double32 0x43 no_irqs (boot [] power_on)) OCR1A.
Proof.
  assert (Hbit : Z.testbit 0x02 1 = Z.testbit 0x43 1) by reflexivity.
  split; [exact Hbit|].
  exact (proj1 (only_the_switch_pin_counts Double32 0x02 0x43 no_irqs
                  (boot [] power_on) Hbit) OCR1A).
Defined.
